(** * MakeAPaymentPanel: the payment workflow of the billing page

    A shallow embedding of the class component [MakeAPaymentPanel]
    (credit-card and PayPal payments), with the properties of the payment
    workflow stated over it.

    - [JS]: the ECMAScript numeric conversions the component calls
      ([+usd], [Number.prototype.toFixed], [parseInt]).
    - [Panel]: the component state, one function per handler and per promise
      callback, and the event loop that drives them.
    - [Workflow]: the properties. *)

From Stdlib Require Import ZArith List String Ascii Bool Lia DecimalString.
Import ListNotations.

Local Open Scope string_scope.
Local Open Scope Z_scope.

(** ** ECMAScript numbers and their string conversions *)

Module JS.

(** A Number value.  [Finite neg m e] is the IEEE 754 binary64 value
    [(-1)^neg * m * 2^e]; values produced by [toDouble] are canonical:
    [m < 2^53], and [2^52 <= m] or [e = -1074], and zero is [m = 0, e = 0]
    (with both signs). *)
Inductive Number : Type :=
| NaN
| Infinity (neg : bool)
| Finite (neg : bool) (m e : Z).

Definition Number_eqb (x y : Number) : bool :=
  match x, y with
  | NaN, NaN => true
  | Infinity a, Infinity b => Bool.eqb a b
  | Finite a m e, Finite b m' e' => Bool.eqb a b && (m =? m') && (e =? e')
  | _, _ => false
  end.

(** Quotient [n / d] rounded to the nearest integer, ties to even. *)
Definition round_half_even (n d : Z) : Z :=
  let q := n / d in
  match 2 * (n mod d) ?= d with
  | Lt => q
  | Gt => q + 1
  | Eq => if Z.even q then q else q + 1
  end.

(** Quotient [n / d] rounded to the nearest integer, ties upwards. *)
Definition round_half_up (n d : Z) : Z :=
  if d <=? 2 * (n mod d) then n / d + 1 else n / d.

(** [floor (log2 (num / den))] for positive [num] and [den]. *)
Definition floor_log2_ratio (num den : Z) : Z :=
  let l := Z.log2 num - Z.log2 den in
  let above := if 0 <=? l then den * 2 ^ l <=? num else den <=? num * 2 ^ (- l) in
  if above then l else l - 1.

(** The Number value for the real [(-1)^neg * num / den] ([0 <= num],
    [0 < den]): round to nearest, ties to even, on 53 bits of mantissa, with
    gradual underflow below [2^-1022] and overflow to infinity. *)
Definition toDouble (neg : bool) (num den : Z) : Number :=
  if num =? 0 then Finite neg 0 0
  else
    let q := Z.max (floor_log2_ratio num den - 52) (-1074) in
    let m := if 0 <=? q then round_half_even num (den * 2 ^ q)
             else round_half_even (num * 2 ^ (- q)) den in
    if m =? 0 then Finite neg 0 0
    else
      let '(m, q) := if m =? 2 ^ 53 then (2 ^ 52, q + 1) else (m, q) in
      if 971 <? q then Infinity neg else Finite neg m q.

(** *** Strings as lists of code units (Latin-1 range) *)

Definition code (c : ascii) : Z := Z.of_nat (nat_of_ascii c).

Definition chars (s : string) : list ascii := list_ascii_of_string s.

Definition is_code (n : Z) (c : ascii) : bool := code c =? n.

(** WhiteSpace and LineTerminator code units below 256:
    TAB, LF, VT, FF, CR, SP, NBSP. *)
Definition isStrWhiteSpaceChar (c : ascii) : bool :=
  existsb (fun n => is_code n c) [9; 10; 11; 12; 13; 32; 160].

Fixpoint trimStart (l : list ascii) : list ascii :=
  match l with
  | c :: l' => if isStrWhiteSpaceChar c then trimStart l' else l
  | [] => []
  end.

Definition trim (l : list ascii) : list ascii :=
  rev (trimStart (rev (trimStart l))).

(** The value of a digit in the given radix: 0-9, then a-z or A-Z. *)
Definition digitValue (radix : Z) (c : ascii) : option Z :=
  let n := code c in
  let v := if (48 <=? n) && (n <=? 57) then n - 48
           else if (97 <=? n) && (n <=? 122) then n - 87
           else if (65 <=? n) && (n <=? 90) then n - 55
           else 36 in
  if v <? radix then Some v else None.

(** Reads the longest prefix of digits: the value accumulated on [acc], the
    number of digits read added to [n], and the rest of the input. *)
Fixpoint readDigits (radix : Z) (l : list ascii) (acc n : Z) : Z * Z * list ascii :=
  match l with
  | c :: l' =>
      match digitValue radix c with
      | Some v => readDigits radix l' (acc * radix + v) (n + 1)
      | None => (acc, n, l)
      end
  | [] => (acc, n, [])
  end.

Definition readSign (l : list ascii) : bool * list ascii :=
  match l with
  | c :: l' => if is_code 45 c then (true, l')
               else if is_code 43 c then (false, l')
               else (false, l)
  | [] => (false, [])
  end.

Definition isNil {A} (l : list A) : bool :=
  match l with [] => true | _ => false end.

Fixpoint chars_eqb (a b : list ascii) : bool :=
  match a, b with
  | [], [] => true
  | x :: a', y :: b' => Ascii.eqb x y && chars_eqb a' b'
  | _, _ => false
  end.

(** ExponentPart, or nothing: [e] or [E], an optional sign, digits. *)
Definition exponentPart (l : list ascii) : option Z :=
  match l with
  | [] => Some 0
  | c :: l' =>
      if is_code 101 c || is_code 69 c then
        let '(neg, l'') := readSign l' in
        let '(v, n, rest) := readDigits 10 l'' 0 0 in
        if (0 <? n) && isNil rest then Some (if neg then - v else v) else None
      else None
  end.

(** StrUnsignedDecimalLiteral: [Infinity], or digits with an optional
    fraction and exponent, at least one digit before the exponent. *)
Definition strUnsignedDecimalLiteral (neg : bool) (l : list ascii) : Number :=
  if chars_eqb l (chars "Infinity") then Infinity neg
  else
    let '(i, ni, r1) := readDigits 10 l 0 0 in
    let '(mant, nf, r2) :=
      match r1 with
      | c :: r => if is_code 46 c then readDigits 10 r i 0 else (i, 0, r1)
      | [] => (i, 0, r1)
      end in
    if ni + nf =? 0 then NaN
    else
      match exponentPart r2 with
      | None => NaN
      | Some x =>
          let e10 := x - nf in
          if 0 <=? e10 then toDouble neg (mant * 10 ^ e10) 1
          else toDouble neg mant (10 ^ (- e10))
      end.

(** NonDecimalIntegerLiteral: [0x], [0o] or [0b] (either case) and digits. *)
Definition nonDecimalIntegerLiteral (l : list ascii) : option Number :=
  match l with
  | z :: p :: r =>
      let radix :=
        if negb (is_code 48 z) then None
        else if is_code 120 p || is_code 88 p then Some 16
        else if is_code 111 p || is_code 79 p then Some 8
        else if is_code 98 p || is_code 66 p then Some 2
        else None in
      match radix with
      | Some rd =>
          let '(v, n, rest) := readDigits rd r 0 0 in
          Some (if (0 <? n) && isNil rest then toDouble false v 1 else NaN)
      | None => None
      end
  | _ => None
  end.

(** StringToNumber, which is what unary [+] does to a string. *)
Definition StringToNumber (s : string) : Number :=
  let text := trim (chars s) in
  if isNil text then Finite false 0 0
  else
    match nonDecimalIntegerLiteral text with
    | Some x => x
    | None => let '(neg, l) := readSign text in strUnsignedDecimalLiteral neg l
    end.

(** [parseInt(string, radix)]. *)
Definition parseInt (s : string) (radix : Z) : Number :=
  let '(neg, l) := readSign (trimStart (chars s)) in
  if (radix <? 0) || (36 <? radix) || (radix =? 1) then NaN
  else
    let hex :=
      match l with
      | z :: p :: _ => is_code 48 z && (is_code 120 p || is_code 88 p)
      | _ => false
      end in
    let '(R, l) :=
      if ((radix =? 0) || (radix =? 16)) && hex then (16, skipn 2 l)
      else (if radix =? 0 then 10 else radix, l) in
    let '(v, n, _) := readDigits R l 0 0 in
    if n =? 0 then NaN else toDouble neg v 1.

(** [x >= k] for an integer [k] that is a Number (here the literal 5):
    false on NaN. *)
Definition geInteger (x : Number) (k : Z) : bool :=
  match x with
  | NaN => false
  | Infinity neg => negb neg
  | Finite neg m e =>
      let v := if neg then - m else m in
      if 0 <=? e then k <=? v * 2 ^ e else k * 2 ^ (- e) <=? v
  end.

(** *** Number to string *)

Definition decimal (n : Z) : string :=
  NilZero.string_of_uint (N.to_uint (Z.to_N n)).

Definition digitCount (n : Z) : Z := Z.of_nat (String.length (decimal n)).

Fixpoint zeros (n : nat) : string :=
  match n with
  | O => EmptyString
  | S n' => String "0" (zeros n')
  end.

(** The candidates [(s, n)] with [k] digits for the integer Number [X] of
    [d] digits: [10^(k-1) <= s < 10^k] and [s * 10^(n-k)] is a real whose
    Number value is [X]. *)
Definition candidates (X : Number) (v d k : Z) : list (Z * Z) :=
  let s0 := v / 10 ^ (d - k) in
  filter
    (fun '(s, n) =>
       (10 ^ (k - 1) <=? s) && (s <? 10 ^ k)
       && Number_eqb (toDouble false (s * 10 ^ (n - k)) 1) X)
    [(s0, d); (s0 + 1, d); (10 ^ (k - 1), d + 1)].

(** Of two candidates the one closer to [v]; the even one on a tie. *)
Definition closer (v k : Z) (a b : Z * Z) : Z * Z :=
  let dist := fun '(s, n) => Z.abs (s * 10 ^ (n - k) - v) in
  match dist a ?= dist b with
  | Lt => a
  | Gt => b
  | Eq => if Z.even (fst a) then a else b
  end.

Fixpoint shortest (fuel : nat) (X : Number) (v d k : Z) : Z * Z * Z :=
  match fuel with
  | O => (v, d, d)
  | S fuel' =>
      match candidates X v d k with
      | [] => shortest fuel' X v d (k + 1)
      | c :: cs => let '(s, n) := fold_left (closer v k) cs c in (s, n, k)
      end
  end.

(** Number::toString for a Number [X = m * 2^e >= 10^21] (an integer):
    the shortest digit string [s] whose value [s * 10^(n-k)] reads back as
    [X], in exponential notation, since [n > 21]. *)
Definition toStringLarge (m e : Z) : string :=
  let v := m * 2 ^ e in
  let '(s, n, k) := shortest 21 (Finite false m e) v (digitCount v) 1 in
  let ds := decimal s in
  let mantissa :=
    match ds with
    | String c EmptyString => ds
    | String c rest => String c (String "." rest)
    | EmptyString => ds
    end in
  (mantissa ++ "e+" ++ decimal (n - 1))%string.

(** [Number.prototype.toFixed(f)] for [0 <= f <= 100]. *)
Definition toFixed (x : Number) (f : nat) : string :=
  match x with
  | NaN => "NaN"
  | Infinity neg => if neg then "-Infinity" else "Infinity"
  | Finite neg m e =>
      let s := if neg && (0 <? m) then "-" else EmptyString in
      if (0 <=? e) && (10 ^ 21 <=? m * 2 ^ e) then (s ++ toStringLarge m e)%string
      else
        let p := 10 ^ Z.of_nat f in
        let n := if 0 <=? e then m * 2 ^ e * p else round_half_up (m * p) (2 ^ (- e)) in
        let ds := decimal n in
        let k := String.length ds in
        let ds := if (k <=? f)%nat then (zeros (f + 1 - k) ++ ds)%string else ds in
        let k := String.length ds in
        match f with
        | O => (s ++ ds)%string
        | _ => (s ++ substring 0 (k - f) ds ++ "." ++ substring (k - f) f ds)%string
        end
  end.

(** *** Sign *)

(** [Math.abs]. *)
Definition abs (x : Number) : Number :=
  match x with
  | NaN => NaN
  | Infinity _ => Infinity false
  | Finite _ m e => Finite false m e
  end.




End JS.

(** ** The component *)

Module Panel.

Inductive PaymentType : Type := CREDIT_CARD | PAYPAL.

Definition PaymentType_eqb (a b : PaymentType) : bool :=
  match a, b with
  | CREDIT_CARD, CREDIT_CARD | PAYPAL, PAYPAL => true
  | _, _ => false
  end.

(** [Linode.ApiFieldError]: [{ field?: string, reason: string }]. *)
Record ApiFieldError : Type := { field : option string; reason : string }.

(** [interface State].  The optional members are [None] when undefined. *)
Record State : Type := {
  type : PaymentType;
  submitting : bool;
  success : option bool;
  successMessage : option string;
  errors : option (list ApiFieldError);
  usd : string;
  ccv : string;
  showPaypal : bool;
  paymentID : string;
  payerID : string;
  isExecutingPaypalPayment : bool;
  paypalSubmitEnabled : bool;
  dialogOpen : bool;
}.

(** [state: State = { ... }], the state of a freshly mounted panel. *)
Definition initial : State := {|
  type := CREDIT_CARD;
  submitting := false;
  success := None;
  successMessage := None;
  errors := None;
  usd := EmptyString;
  ccv := EmptyString;
  showPaypal := false;
  paymentID := EmptyString;
  payerID := EmptyString;
  isExecutingPaypalPayment := false;
  paypalSubmitEnabled := false;
  dialogOpen := false;
|}.

(** One key of the object handed to [this.setState]. *)
Inductive Key : Type :=
| Type_ (v : PaymentType)
| Submitting (v : bool)
| Success (v : option bool)
| SuccessMessage (v : option string)
| Errors (v : option (list ApiFieldError))
| Usd (v : string)
| Ccv (v : string)
| ShowPaypal (v : bool)
| PaymentID (v : string)
| PayerID (v : string)
| IsExecutingPaypalPayment (v : bool)
| PaypalSubmitEnabled (v : bool)
| DialogOpen (v : bool).

Definition assign (s : State) (k : Key) : State :=
  let '(Build_State t sub suc msg err u c shw pay payer exe en dlg) := s in
  match k with
  | Type_ v => Build_State v sub suc msg err u c shw pay payer exe en dlg
  | Submitting v => Build_State t v suc msg err u c shw pay payer exe en dlg
  | Success v => Build_State t sub v msg err u c shw pay payer exe en dlg
  | SuccessMessage v => Build_State t sub suc v err u c shw pay payer exe en dlg
  | Errors v => Build_State t sub suc msg v u c shw pay payer exe en dlg
  | Usd v => Build_State t sub suc msg err v c shw pay payer exe en dlg
  | Ccv v => Build_State t sub suc msg err u v shw pay payer exe en dlg
  | ShowPaypal v => Build_State t sub suc msg err u c v pay payer exe en dlg
  | PaymentID v => Build_State t sub suc msg err u c shw v payer exe en dlg
  | PayerID v => Build_State t sub suc msg err u c shw pay v exe en dlg
  | IsExecutingPaypalPayment v => Build_State t sub suc msg err u c shw pay payer v en dlg
  | PaypalSubmitEnabled v => Build_State t sub suc msg err u c shw pay payer exe v dlg
  | DialogOpen v => Build_State t sub suc msg err u c shw pay payer exe en v
  end.

(** [this.setState({ ... })]: the keys given are merged into the state. *)
Definition setState (s : State) (keys : list Key) : State :=
  fold_left assign keys s.

(** The requests of [src/services/account], with their payloads. *)
Inductive Call : Type :=
| makePayment (usd ccv : string)
| executePaypalPayment (payer_id payment_id : string)
| stagePaypalPayment (cancel_url redirect_url usd : string).

(** What a rejected request carries: the value at
    [error.response.data.errors], when there is one. *)
Definition Rejection : Type := option (list ApiFieldError).

(** [pathOr([{ reason: 'Unable to make a payment at this time.' }],
    ['response', 'data', 'errors'], error)]. *)
Definition pathOrErrors (error : Rejection) : list ApiFieldError :=
  match error with
  | Some es => es
  | None => [{| field := None; reason := "Unable to make a payment at this time." |}]
  end.

(** [value || '']. *)
Definition orEmpty (value : string) : string :=
  if String.eqb value EmptyString then EmptyString else value.

(** [(+usd).toFixed(2)]. *)
Definition toFixed2 (usd : string) : string :=
  JS.toFixed (JS.StringToNumber usd) 2.

(** *** Handlers *)

Definition componentDidUpdate (isScriptLoadSucceed : bool) (s : State) : State :=
  if negb (showPaypal s) && isScriptLoadSucceed
  then setState s [ShowPaypal true]
  else s.

Definition handleTypeChange (value : PaymentType) (s : State) : State :=
  setState s [Type_ value].

Definition handleUSDChange (value : string) (s : State) : State :=
  let amountAsInt := JS.parseInt value 10 in
  let s :=
    if PaymentType_eqb (type s) PAYPAL && JS.geInteger amountAsInt 5
    then setState s [PaypalSubmitEnabled true]
    else s in
  setState s [Usd (orEmpty value)].

Definition handleCCVChange (value : string) (s : State) : State :=
  setState s [Ccv (orEmpty value)].

Definition submitForm (s : State) : State * list Call :=
  let errs :=
    ((if String.eqb (usd s) EmptyString
      then [{| field := Some "usd"; reason := "Amount cannot be blank." |}]
      else [])
     ++
     (if String.eqb (ccv s) EmptyString
      then [{| field := Some "ccv"; reason := "CCV cannot be blank." |}]
      else []))%list in
  if negb (JS.isNil errs)
  then (setState s [Errors (Some errs)], [])
  else (setState s [Submitting true; Errors None; SuccessMessage (Some EmptyString)],
        [makePayment (toFixed2 (usd s)) (ccv s)]).

Definition makePayment_then (s : State) : State :=
  setState s [Submitting false; Success (Some true)].

Definition makePayment_catch (error : Rejection) (s : State) : State :=
  setState s [Submitting false; Errors (Some (pathOrErrors error))].

Definition resetForm (s : State) : State :=
  setState s [Errors None; Success None; Usd EmptyString; Ccv EmptyString;
              Type_ CREDIT_CARD].

Definition closeDialog (s : State) : State :=
  setState s [DialogOpen false; Success (Some true);
              SuccessMessage (Some "Payment Cancelled")].

Definition confirmPaypalPayment (s : State) : State * list Call :=
  (setState s [IsExecutingPaypalPayment true],
   [executePaypalPayment (payerID s) (paymentID s)]).

Definition executePaypalPayment_then (s : State) : State :=
  setState s [IsExecutingPaypalPayment false; DialogOpen false; Success (Some true);
              Usd EmptyString; SuccessMessage (Some EmptyString)].

Definition executePaypalPayment_catch (error : Rejection) (s : State) : State :=
  setState s [Submitting false; Errors (Some (pathOrErrors error))].

Definition payment (s : State) : State * list Call :=
  (setState s [Submitting true; Errors (Some [])],
   [stagePaypalPayment "https://cloud.linode.com/billing"
      "https://cloud.linode.com/billing" (toFixed2 (usd s))]).

Definition stagePaypalPayment_then (payment_id : string) (s : State) : State :=
  setState s [Submitting false; PaymentID payment_id].

Definition stagePaypalPayment_catch (error : Rejection) (s : State) : State :=
  setState s [Submitting false; Errors (Some (pathOrErrors error))].

Definition onAuthorize (data_payerID : string) (s : State) : State :=
  setState s [DialogOpen true; PayerID data_payerID].

Definition onCancel (s : State) : State :=
  setState s [Success (Some true); SuccessMessage (Some "Payment Cancelled")].

(** *** What [renderForm] shows *)

(** The text of the success notice, when [success] is truthy. *)
Definition successNotice (s : State) : option string :=
  match success s with
  | Some true =>
      Some (match successMessage s with
            | Some m => if String.eqb m EmptyString
                        then "Payment successfully submitted." else m
            | None => "Payment successfully submitted."
            end)
  | _ => None
  end.

(** *** The event loop *)

(** Whatever can call into the component: the user through the rendered
    controls, React after an update, the PayPal button, and the promises
    of the three requests when they settle. *)
Inductive Event : Type :=
| ComponentDidUpdate (isScriptLoadSucceed : bool)
| HandleTypeChange (value : PaymentType)
| HandleUSDChange (value : string)
| HandleCCVChange (value : string)
| SubmitForm
| ResetForm
| CloseDialog
| ConfirmPaypalPayment
| Payment
| OnAuthorize (payerID : string)
| OnCancel
| MakePaymentThen
| MakePaymentCatch (error : Rejection)
| ExecutePaypalPaymentThen
| ExecutePaypalPaymentCatch (error : Rejection)
| StagePaypalPaymentThen (payment_id : string)
| StagePaypalPaymentCatch (error : Rejection).

(** The state after the handler of an event, and the requests it sent. *)
Definition handle (s : State) (e : Event) : State * list Call :=
  match e with
  | ComponentDidUpdate b => (componentDidUpdate b s, [])
  | HandleTypeChange v => (handleTypeChange v s, [])
  | HandleUSDChange v => (handleUSDChange v s, [])
  | HandleCCVChange v => (handleCCVChange v s, [])
  | SubmitForm => submitForm s
  | ResetForm => (resetForm s, [])
  | CloseDialog => (closeDialog s, [])
  | ConfirmPaypalPayment => confirmPaypalPayment s
  | Payment => payment s
  | OnAuthorize p => (onAuthorize p s, [])
  | OnCancel => (onCancel s, [])
  | MakePaymentThen => (makePayment_then s, [])
  | MakePaymentCatch err => (makePayment_catch err s, [])
  | ExecutePaypalPaymentThen => (executePaypalPayment_then s, [])
  | ExecutePaypalPaymentCatch err => (executePaypalPayment_catch err s, [])
  | StagePaypalPaymentThen id => (stagePaypalPayment_then id s, [])
  | StagePaypalPaymentCatch err => (stagePaypalPayment_catch err s, [])
  end.

(** The handlers run one after the other, with no regard for what is
    rendered or in flight. *)
Fixpoint handleAll (s : State) (es : list Event) : State * list Call :=
  match es with
  | [] => (s, [])
  | e :: es' =>
      let '(s1, calls) := handle s e in
      let '(s2, calls') := handleAll s1 es' in
      (s2, (calls ++ calls')%list)
  end.

(** Modelled from the spec: [ConfirmationDialog]
    (src/components/ConfirmationDialog) is not among the sources.  It is a
    pure gating component with no state of its own beyond open and closed,
    driven by the [open] property it is given: its actions and its close
    control are there exactly when it is open. *)
Definition dialogOffers (open : bool) : bool := open.

(** Which controls [renderForm], [renderActions] and the dialog offer, for
    a panel whose [render] shows the form (it does unless the account has
    loaded without a balance).  The [loading] property of a button is taken
    not to disable it ([Button] is not among the sources), and the callbacks
    of the PayPal button other than [payment] are left to the widget, which
    calls them when it pleases. *)
Definition rendered (s : State) (e : Event) : bool :=
  let paypalButton := PaymentType_eqb (type s) PAYPAL && showPaypal s in
  match e with
  | HandleTypeChange PAYPAL => showPaypal s
  | HandleCCVChange _ => PaymentType_eqb (type s) CREDIT_CARD
  | SubmitForm => negb paypalButton
  | Payment => paypalButton
  | CloseDialog | ConfirmPaypalPayment => dialogOffers (dialogOpen s)
  | _ => true
  end.

Definition isMakePayment (c : Call) : bool :=
  match c with makePayment _ _ => true | _ => false end.

Definition isExecutePaypalPayment (c : Call) : bool :=
  match c with executePaypalPayment _ _ => true | _ => false end.

Definition isStagePaypalPayment (c : Call) : bool :=
  match c with stagePaypalPayment _ _ _ => true | _ => false end.

(** Removes the oldest request that satisfies [p], if there is one. *)
Fixpoint settle (p : Call -> bool) (inflight : list Call) : option (list Call) :=
  match inflight with
  | [] => None
  | c :: cs =>
      if p c then Some cs
      else match settle p cs with
           | Some cs' => Some (c :: cs')
           | None => None
           end
  end.

(** The requests still in flight once the event has happened; [None] when
    the event is the settling of a request that is not in flight. *)
Definition awaited (inflight : list Call) (e : Event) : option (list Call) :=
  match e with
  | MakePaymentThen | MakePaymentCatch _ => settle isMakePayment inflight
  | ExecutePaypalPaymentThen | ExecutePaypalPaymentCatch _ =>
      settle isExecutePaypalPayment inflight
  | StagePaypalPaymentThen _ | StagePaypalPaymentCatch _ =>
      settle isStagePaypalPayment inflight
  | _ => Some inflight
  end.

(** A mounted panel: its state, the requests in flight, and every request
    sent so far, oldest first. *)
Record World : Type := {
  state : State;
  inflight : list Call;
  sent : list Call;
}.

Definition mounted : World :=
  {| state := initial; inflight := []; sent := [] |}.

(** One turn of the event loop; [None] when the event cannot happen. *)
Definition fire (w : World) (e : Event) : option World :=
  if rendered (state w) e then
    match awaited (inflight w) e with
    | Some pending =>
        let '(s, calls) := handle (state w) e in
        Some {| state := s;
                inflight := (pending ++ calls)%list;
                sent := (sent w ++ calls)%list |}
    | None => None
    end
  else None.

Fixpoint fireAll (w : World) (es : list Event) : option World :=
  match es with
  | [] => Some w
  | e :: es' =>
      match fire w e with
      | Some w' => fireAll w' es'
      | None => None
      end
  end.

(** *** Notions the properties are stated with *)

(** The form fields the validation of [submitForm] finds empty. *)
Definition blankFields (s : State) : list string :=
  filter (fun f => String.eqb (if String.eqb f "usd" then usd s else ccv s) EmptyString)
    ["usd"; "ccv"].


(** The PayPal radio button is there only once the script has loaded. *)
Definition paypalNeedsScript (s : State) : Prop :=
  type s = PAYPAL -> showPaypal s = true.

(** While the dialog is open, the [payerID] of the state is one that
    [onAuthorize] received earlier in the run. *)
Definition authorized (before : list Event) (s : State) : Prop :=
  dialogOpen s = true -> In (OnAuthorize (payerID s)) before.

(** A PayPal payment of 10.00 USD on a fresh panel, up to the authorization
    callback: the script loads, the user picks PayPal, types the amount and
    clicks the PayPal button, the payment is staged as [PAY-1] and the widget
    reports the payer [PAYER-1]. *)
Definition paypalUpToAuthorization : list Event :=
  [ComponentDidUpdate true; HandleTypeChange PAYPAL; HandleUSDChange "10.00";
   Payment; StagePaypalPaymentThen "PAY-1"; OnAuthorize "PAYER-1"].

Definition after (es : list Event) : World :=
  match fireAll mounted es with
  | Some w => w
  | None => mounted
  end.

(** The panel with the confirmation dialog open, and after the click on
    confirm. *)
Definition awaitingConfirmation : World :=
  Eval vm_compute in after paypalUpToAuthorization.

Definition executing : World :=
  Eval vm_compute in after (paypalUpToAuthorization ++ [ConfirmPaypalPayment]).

End Panel.

(** ** What the panel renders *)

Module View.

Import Panel.












(** [const type] of [renderForm]. *)
Definition typeLabel (s : State) : string :=
  if PaymentType_eqb (type s) PAYPAL then "PayPal" else "Credit Card".

Definition lineBreak : string := String (ascii_of_nat 10) EmptyString.

(** The text of the confirmation dialog, a template literal broken over two
    lines of the source. *)
Definition confirmText (s : State) : string :=
  "Confirm " ++ typeLabel s ++ " payment for $" ++ toFixed2 (usd s) ++ " USD"
  ++ lineBreak ++ "            to Linode LLC?".

End View.

(** ** Notions on amounts and on the history of a run *)

Module History.

Import Panel.

(** The [payment_id] of the latest stage response of a run, and the
    [payerID] of its latest authorization; empty before the first. *)
Definition lastStaged (es : list Event) : string :=
  fold_left
    (fun id e => match e with StagePaypalPaymentThen id' => id' | _ => id end)
    es EmptyString.

Definition lastPayer (es : list Event) : string :=
  fold_left (fun id e => match e with OnAuthorize id' => id' | _ => id end)
    es EmptyString.

Definition isOnAuthorize (e : Event) : bool :=
  match e with OnAuthorize _ => true | _ => false end.

Definition isSubmitForm (e : Event) : bool :=
  match e with SubmitForm => true | _ => false end.

Definition isPayment (e : Event) : bool :=
  match e with Payment => true | _ => false end.

Definition isConfirm (e : Event) : bool :=
  match e with ConfirmPaypalPayment => true | _ => false end.

Definition isResetForm (e : Event) : bool :=
  match e with ResetForm => true | _ => false end.

(** The events that write [usd] or [type]. *)
Definition editsDraft (e : Event) : bool :=
  match e with
  | HandleUSDChange _ | HandleTypeChange _ | ResetForm | ExecutePaypalPaymentThen => true
  | _ => false
  end.

(** The integer an amount string starts with, after white space and a sign;
    none when no digit comes first. *)
Definition leadingInteger (value : string) : option Z :=
  let '(neg, l) := JS.readSign (JS.trimStart (JS.chars value)) in
  let '(n, count, _) := JS.readDigits 10 l 0 0 in
  if 0 <? count then Some (if neg then - n else n) else None.

Definition isWhiteSpace (value : string) : bool :=
  forallb JS.isStrWhiteSpaceChar (JS.chars value).

(** An amount of [n] cents written with two decimals. *)
Definition cents (n : Z) : string :=
  JS.decimal (n / 100) ++ "." ++ JS.decimal (n mod 100 / 10) ++ JS.decimal (n mod 10).

Definition executes (calls : list Call) : list Call :=
  filter isExecutePaypalPayment calls.

Definition stages (calls : list Call) : list Call :=
  filter isStagePaypalPayment calls.

Definition makePayments (calls : list Call) : list Call :=
  filter isMakePayment calls.

Definition count (p : Event -> bool) (es : list Event) : nat :=
  List.length (filter p es).

(** A request [submitForm] or [payment] sends. *)
Definition raisesSubmitting (c : Call) : bool :=
  isMakePayment c || isStagePaypalPayment c.

(** The success messages the component ever sets. *)
Definition knownMessage (m : option string) : bool :=
  match m with
  | None => true
  | Some t => String.eqb t EmptyString || String.eqb t "Payment Cancelled"
  end.

(** [f] on every integer from [lo] up to [lo + 2^depth], excluded. *)
Fixpoint allFrom (f : Z -> bool) (depth : nat) (lo : Z) : bool :=
  match depth with
  | O => f lo
  | S d => allFrom f d lo && allFrom f d (lo + 2 ^ Z.of_nat d)
  end.

(** While [submitting] is set, a request of [submitForm] or of [payment] is
    in flight. *)
Definition submittingIsBacked (w : World) : Prop :=
  submitting (state w) = true ->
  exists c, In c (inflight w) /\ raisesSubmitting c = true.

End History.

(** ** Properties of the payment workflow *)

Module Workflow.

Import Panel.
Import View.
Import History.

Arguments toFixed2 : simpl never.
Arguments JS.parseInt : simpl never.
Arguments JS.geInteger : simpl never.

(** Case analysis on the state and on the branches of the handlers. *)
Ltac handler_cases s :=
  destruct s; simpl in *;
  repeat match goal with
    | |- context [componentDidUpdate] => unfold componentDidUpdate; simpl
    | |- context [handleUSDChange] => unfold handleUSDChange; simpl
    | |- context [submitForm] => unfold submitForm; simpl
    | |- context [if negb ?a && ?b then _ else _] => destruct (negb a && b); simpl
    | |- context [if ?a && JS.geInteger ?x ?y then _ else _] =>
        destruct (a && JS.geInteger x y); simpl
    | |- context [if negb (JS.isNil ?l) then _ else _] =>
        destruct (negb (JS.isNil l)); simpl
    end.

(** *** The numeric conversions on sample inputs *)

(** The conversions on the amounts of the billing form and on the edge cases
    of the grammar and of the rounding. *)
Example toFixed_amounts :
  map (fun s => JS.toFixed (JS.StringToNumber s) 2)
    ["10.00"; "3"; "1.005"; "8.345"; "1234.5678"; ".5"; "5."; "0x1F"; " -0.001 "; "-0"]
  = ["10.00"; "3.00"; "1.00"; "8.35"; "1234.57"; "0.50"; "5.00"; "31.00"; "-0.00"; "0.00"].
Proof. vm_compute. reflexivity. Qed.

Example toFixed_not_numbers :
  map (fun s => JS.toFixed (JS.StringToNumber s) 2)
    ["abc"; "12px"; "."; "1e"; "1e400"; "-Infinity"; EmptyString]
  = ["NaN"; "NaN"; "NaN"; "NaN"; "Infinity"; "-Infinity"; "0.00"].
Proof. vm_compute. reflexivity. Qed.

Example toFixed_large :
  map (fun s => JS.toFixed (JS.StringToNumber s) 2)
    ["1e21"; "1e23"; "999999999999999999999"; "123456789012345678901234567890"]
  = ["1e+21"; "1e+23"; "1e+21"; "1.2345678901234568e+29"].
Proof. vm_compute. reflexivity. Qed.

Example StringToNumber_limits :
  map JS.StringToNumber ["5e-324"; "2e-324"; "1.7976931348623157e308"; "1.7976931348623159e308"]
  = [JS.Finite false 1 (-1074); JS.Finite false 0 0;
     JS.Finite false 9007199254740991 971; JS.Infinity false].
Proof. vm_compute. reflexivity. Qed.

Example parseInt_ge_5 :
  map (fun s => JS.geInteger (JS.parseInt s 10) 5)
    ["5"; " +5.99"; "12px"; "4.99"; "-7"; "abc"; "0x1f"; EmptyString]
  = [true; true; true; false; false; false; false; false].
Proof. vm_compute. reflexivity. Qed.

(** *** Helper lemmas *)

Lemma orEmpty_id (v : string) : orEmpty v = v.
Proof.
  unfold orEmpty. destruct (String.eqb_spec v EmptyString); congruence.
Qed.

Lemma eqb_empty_false (v : string) : v <> EmptyString -> String.eqb v EmptyString = false.
Proof. intros H. destruct (String.eqb_spec v EmptyString); congruence. Qed.

(** The handlers and callbacks that touch [paypalSubmitEnabled] only ever
    write [true] to it. *)
Lemma handle_keeps_paypalSubmitEnabled (s : State) (e : Event) :
  paypalSubmitEnabled s = true -> paypalSubmitEnabled (fst (handle s e)) = true.
Proof.
  intros H. destruct s; simpl in H; subst.
  destruct e; simpl; try reflexivity.
  - unfold componentDidUpdate; simpl.
    destruct (negb showPaypal0 && isScriptLoadSucceed); reflexivity.
  - unfold handleUSDChange; simpl.
    destruct (PaymentType_eqb type0 PAYPAL && _); reflexivity.
  - unfold submitForm; simpl.
    destruct (negb _); reflexivity.
Qed.

Lemma handleAll_keeps_paypalSubmitEnabled (es : list Event) :
  forall s, paypalSubmitEnabled s = true ->
            paypalSubmitEnabled (fst (handleAll s es)) = true.
Proof.
  induction es as [|e es IH]; intros s H; simpl.
  - exact H.
  - destruct (handle s e) as [s1 calls] eqn:E.
    specialize (IH s1).
    destruct (handleAll s1 es) as [s2 calls']; simpl in *.
    apply IH. change s1 with (fst (s1, calls)). rewrite <- E.
    now apply handle_keeps_paypalSubmitEnabled.
Qed.

Lemma submitForm_blank (s : State) :
  usd s = EmptyString \/ ccv s = EmptyString ->
  exists errs,
    submitForm s = (setState s [Errors (Some errs)], [])
    /\ errs <> []
    /\ map field errs = map Some (blankFields s).
Proof.
  intros H. unfold submitForm, blankFields. simpl.
  destruct (String.eqb_spec (usd s) EmptyString) as [Hu|Hu];
    destruct (String.eqb_spec (ccv s) EmptyString) as [Hc|Hc]; simpl.
  - eexists; repeat split; discriminate.
  - eexists; repeat split; discriminate.
  - eexists; repeat split; discriminate.
  - destruct H; contradiction.
Qed.

Lemma submitForm_filled (s : State) :
  usd s <> EmptyString -> ccv s <> EmptyString ->
  submitForm s =
    (setState s [Submitting true; Errors None; SuccessMessage (Some EmptyString)],
     [makePayment (toFixed2 (usd s)) (ccv s)]).
Proof.
  intros Hu Hc. unfold submitForm.
  rewrite (eqb_empty_false _ Hu), (eqb_empty_false _ Hc). reflexivity.
Qed.

(** *** Validation on submit *)




(** C3, as the code has it.  [submitForm] accepts the draft exactly when the
    amount string and the CCV string are both non-empty, whatever the payment
    type and whatever the amount parses to: an accepted draft clears [errors]
    and sends one [makePayment] with [(+usd).toFixed(2)] and the CCV; a
    rejected one sends nothing and sets [errors] to a non-empty list whose
    entries all name their field. *)
Theorem validation_checks_emptiness_only (s : State) :
  let accepted :=
    negb (String.eqb (usd s) EmptyString) && negb (String.eqb (ccv s) EmptyString) in
  snd (submitForm s) =
    (if accepted then [makePayment (toFixed2 (usd s)) (ccv s)] else [])
  /\ (if accepted then errors (fst (submitForm s)) = None
      else exists errs,
          errors (fst (submitForm s)) = Some errs
          /\ errs <> []
          /\ Forall (fun e => exists f, field e = Some f) errs).
Proof.
  assert (Hblank : usd s = EmptyString \/ ccv s = EmptyString ->
            snd (submitForm s) = []
            /\ exists errs,
                errors (fst (submitForm s)) = Some errs
                /\ errs <> []
                /\ Forall (fun e => exists f, field e = Some f) errs).
  { intros H. destruct (submitForm_blank s H) as (errs & E & Hne & Hf).
    rewrite E. split; [reflexivity|].
    exists errs. split; [destruct s; reflexivity|]. split; [exact Hne|].
    apply Forall_forall. intros e He.
    assert (Hin : In (field e) (map Some (blankFields s)))
      by (rewrite <- Hf; now apply in_map).
    apply in_map_iff in Hin. destruct Hin as (f & Hfe & _). eauto. }
  destruct (String.eqb_spec (usd s) EmptyString) as [Hu|Hu];
    destruct (String.eqb_spec (ccv s) EmptyString) as [Hc|Hc]; simpl;
    try (apply Hblank; (now left) || (now right)).
  rewrite (submitForm_filled s Hu Hc). split; [reflexivity|].
  destruct s; reflexivity.
Qed.

(** C3 fails on an amount that is a number but not a positive one, and on one
    that is not a number: typed into a fresh panel with a CCV, ["-5"] is
    sent to the gateway as ["-5.00"] and ["abc"] as ["NaN"], with no error
    set. *)
Lemma amount_not_positive_is_submitted :
  JS.StringToNumber "-5" = JS.Finite true 5629499534213120 (-50)
  /\ JS.StringToNumber "abc" = JS.NaN
  /\ (exists w,
        fireAll mounted [HandleUSDChange "-5"; HandleCCVChange "123"; SubmitForm] = Some w
        /\ sent w = [makePayment "-5.00" "123"]
        /\ errors (state w) = None)
  /\ (exists w,
        fireAll mounted [HandleUSDChange "abc"; HandleCCVChange "123"; SubmitForm] = Some w
        /\ sent w = [makePayment "NaN" "123"]
        /\ errors (state w) = None).
Proof.
  repeat split; try (vm_compute; reflexivity);
    eexists; repeat split; vm_compute; reflexivity.
Qed.

(** *** Requests in flight *)

(** C4, as the code has it.  [submitForm], [payment] and
    [confirmPaypalPayment] raise their busy flag when they send their
    request, but none of them reads it: whatever [submitting] and
    [isExecutingPaypalPayment] hold, they send the same requests, one request
    for [payment] and for [confirmPaypalPayment], and one for [submitForm]
    unless the validation rejects the draft. *)
Theorem busy_flags_are_not_consulted (s : State) (busy executing : bool) :
  let s' := setState s [Submitting busy; IsExecutingPaypalPayment executing] in
  (snd (submitForm s') = snd (submitForm s)
   /\ snd (payment s') = snd (payment s)
   /\ snd (confirmPaypalPayment s') = snd (confirmPaypalPayment s))
  /\ (List.length (snd (payment s')) = 1%nat /\ submitting (fst (payment s')) = true)
  /\ (List.length (snd (confirmPaypalPayment s')) = 1%nat
      /\ isExecutingPaypalPayment (fst (confirmPaypalPayment s')) = true)
  /\ (snd (submitForm s') = []
      \/ (List.length (snd (submitForm s')) = 1%nat /\ submitting (fst (submitForm s')) = true)).
Proof.
  destruct s; unfold submitForm; simpl.
  destruct (negb _); simpl; repeat split; [left | right; split]; reflexivity.
Qed.

(** C4 fails for both operations.  The submit handler called again while the
    first [makePayment] is in flight sends it a second time, and the confirm
    handler called again while the first [executePaypalPayment] is in flight
    sends that one a second time. *)
Lemma reinvoking_sends_a_second_request :
  (exists w,
      fireAll mounted [HandleUSDChange "10.00"; HandleCCVChange "123"; SubmitForm] = Some w
      /\ submitting (state w) = true
      /\ inflight w = [makePayment "10.00" "123"]
      /\ snd (submitForm (state w)) = [makePayment "10.00" "123"])
  /\ (exists w,
        fireAll mounted
          [ComponentDidUpdate true; HandleTypeChange PAYPAL; HandleUSDChange "10.00";
           Payment; StagePaypalPaymentThen "PAY-1"; OnAuthorize "PAYER-1";
           ConfirmPaypalPayment] = Some w
        /\ isExecutingPaypalPayment (state w) = true
        /\ inflight w = [executePaypalPayment "PAYER-1" "PAY-1"]
        /\ snd (confirmPaypalPayment (state w)) = [executePaypalPayment "PAYER-1" "PAY-1"]).
Proof.
  split; eexists; repeat split; vm_compute; reflexivity.
Qed.

(** *** The PayPal button gate *)

(** C10.  Once a keystroke in the amount field whose [parseInt] is at least 5
    has set [paypalSubmitEnabled] while the type is PayPal, the flag stays
    set whatever happens next: a lower amount, an amount that is not a
    number, another payment type, [resetForm], or any other handler or
    callback. *)
Theorem paypalSubmitEnabled_is_never_cleared (s : State) (value : string) (es : list Event) :
  type s = PAYPAL ->
  JS.geInteger (JS.parseInt value 10) 5 = true ->
  paypalSubmitEnabled (handleUSDChange value s) = true
  /\ paypalSubmitEnabled (fst (handleAll (handleUSDChange value s) es)) = true.
Proof.
  intros Ht Hv.
  assert (H : paypalSubmitEnabled (handleUSDChange value s) = true).
  { unfold handleUSDChange. rewrite Ht, Hv. destruct s; reflexivity. }
  split; [exact H|]. now apply handleAll_keeps_paypalSubmitEnabled.
Qed.

Lemma paypalSubmitEnabled_is_never_cleared_witness :
  paypalSubmitEnabled
    (handleUSDChange "5" (setState initial [ShowPaypal true; Type_ PAYPAL])) = true
  /\ paypalSubmitEnabled
       (fst (handleAll
               (handleUSDChange "5" (setState initial [ShowPaypal true; Type_ PAYPAL]))
               [HandleUSDChange "4"; HandleUSDChange "abc";
                HandleTypeChange CREDIT_CARD; ResetForm])) = true.
Proof.
  apply (paypalSubmitEnabled_is_never_cleared
           (setState initial [ShowPaypal true; Type_ PAYPAL]) "5"
           [HandleUSDChange "4"; HandleUSDChange "abc";
            HandleTypeChange CREDIT_CARD; ResetForm]).
  - reflexivity.
  - vm_compute. reflexivity.
Defined.

(** *** Runs of the event loop *)

Lemma fire_inv (w w' : World) (e : Event) :
  fire w e = Some w' ->
  rendered (state w) e = true
  /\ state w' = fst (handle (state w) e)
  /\ sent w' = (sent w ++ snd (handle (state w) e))%list.
Proof.
  unfold fire. intros H.
  destruct (rendered (state w) e); [|discriminate].
  destruct (awaited (inflight w) e); [|discriminate].
  destruct (handle (state w) e) as [s calls].
  injection H as <-. repeat split.
Qed.

Lemma fireAll_snoc (es : list Event) (e : Event) :
  forall w0 w',
    fireAll w0 (es ++ [e]) = Some w' ->
    exists w, fireAll w0 es = Some w /\ fire w e = Some w'.
Proof.
  induction es as [|x es IH]; intros w0 w' H; simpl in *.
  - destruct (fire w0 e) as [w1|] eqn:E; [|discriminate].
    injection H as <-. exists w0. now rewrite E.
  - destruct (fire w0 x) as [w1|]; [|discriminate]. now apply IH.
Qed.

Lemma handle_keeps_paypalNeedsScript (s : State) (e : Event) :
  rendered s e = true -> paypalNeedsScript s -> paypalNeedsScript (fst (handle s e)).
Proof.
  unfold paypalNeedsScript. intros Hr I.
  destruct s; simpl in I.
  destruct e; simpl in *; try exact I; try (intros D; discriminate D).
  - unfold componentDidUpdate; simpl.
    destruct showPaypal0, isScriptLoadSucceed; simpl; auto.
  - destruct value; [intros D; discriminate D | intros _; exact Hr].
  - unfold handleUSDChange; simpl.
    destruct (_ && JS.geInteger _ _); exact I.
  - unfold submitForm; simpl.
    destruct (negb (JS.isNil _)); exact I.
Qed.

Lemma fireAll_paypalNeedsScript (es : list Event) :
  forall w0 w,
    paypalNeedsScript (state w0) ->
    fireAll w0 es = Some w ->
    paypalNeedsScript (state w).
Proof.
  induction es as [|e es IH]; intros w0 w I H; simpl in H.
  - now injection H as <-.
  - destruct (fire w0 e) as [w1|] eqn:E; [|discriminate].
    destruct (fire_inv _ _ _ E) as (Hr & Hs & _).
    apply (IH w1); [|exact H].
    rewrite Hs. now apply handle_keeps_paypalNeedsScript.
Qed.

(** In every run the submit button is offered on credit-card drafts only:
    with the type on PayPal the PayPal button stands in its place. *)
Lemma submit_is_offered_on_credit_card (es : list Event) (w : World) :
  fireAll mounted es = Some w ->
  rendered (state w) SubmitForm = true ->
  type (state w) = CREDIT_CARD.
Proof.
  intros H Hr.
  assert (I : paypalNeedsScript (state w)).
  { apply (fireAll_paypalNeedsScript es mounted w); [|exact H]. discriminate. }
  unfold paypalNeedsScript in I. simpl in Hr.
  destruct (type (state w)); [reflexivity|].
  rewrite I in Hr by reflexivity. discriminate.
Qed.

Lemma handle_keeps_authorized (before : list Event) (s : State) (e : Event) :
  authorized before s -> authorized (before ++ [e]) (fst (handle s e)).
Proof.
  unfold authorized. intros I H. apply in_or_app.
  destruct s; simpl in I.
  destruct e; simpl in *;
    try (left; now apply I);
    try discriminate;
    try (right; now left).
  - unfold componentDidUpdate in *; simpl in *.
    destruct (negb showPaypal0 && isScriptLoadSucceed); simpl in *; left; now apply I.
  - unfold handleUSDChange in *; simpl in *.
    destruct (PaymentType_eqb type0 PAYPAL && _); simpl in *; left; now apply I.
  - unfold submitForm in *; simpl in *.
    destruct (negb _); simpl in *; left; now apply I.
Qed.

Lemma fireAll_authorized (es : list Event) :
  forall before w0 w,
    authorized before (state w0) ->
    fireAll w0 es = Some w ->
    authorized (before ++ es) (state w).
Proof.
  induction es as [|e es IH]; intros before w0 w I H; simpl in H.
  - injection H as <-. now rewrite app_nil_r.
  - destruct (fire w0 e) as [w1|] eqn:E; [|discriminate].
    destruct (fire_inv _ _ _ E) as (_ & Hs & _).
    replace (before ++ e :: es)%list with ((before ++ [e]) ++ es)%list
      by (rewrite <- app_assoc; reflexivity).
    apply (IH _ w1); [|exact H].
    rewrite Hs. now apply handle_keeps_authorized.
Qed.

Lemma mounted_authorized (es : list Event) (w : World) :
  fireAll mounted es = Some w -> authorized es (state w).
Proof.
  intros H. apply (fireAll_authorized es [] mounted w); [|exact H].
  intros D. discriminate D.
Qed.

(** Only [confirmPaypalPayment] sends [executePaypalPayment], and it sends
    the [payerID] and [paymentID] of the state. *)
Lemma handle_execute_inv (s : State) (e : Event) (payer_id payment_id : string) :
  In (executePaypalPayment payer_id payment_id) (snd (handle s e)) ->
  e = ConfirmPaypalPayment /\ payer_id = payerID s /\ payment_id = paymentID s.
Proof.
  destruct e; simpl; try contradiction.
  - unfold submitForm. destruct (negb _); simpl; [contradiction|].
    intros [H|[]]; discriminate.
  - intros [H|[]]. injection H as <- <-. repeat split.
  - intros [H|[]]; discriminate.
Qed.

(** *** The double gate before the execute request *)

(** C1.  In every run of a mounted panel, a step that sends
    [executePaypalPayment] is a click on the confirm button of the open
    confirmation dialog, it comes after an [onAuthorize] callback that
    delivered the payer id being sent, and it sends that one request;
    [onAuthorize] itself sends nothing. *)
Theorem execute_needs_authorization_and_confirmation
  (before : list Event) (e : Event) (w w' : World) (payer_id payment_id : string) :
  fireAll mounted before = Some w ->
  fire w e = Some w' ->
  In (executePaypalPayment payer_id payment_id) (snd (handle (state w) e)) ->
  e = ConfirmPaypalPayment
  /\ dialogOpen (state w) = true
  /\ In (OnAuthorize payer_id) before
  /\ sent w' = (sent w ++ [executePaypalPayment payer_id payment_id])%list
  /\ (forall s p, snd (handle s (OnAuthorize p)) = []).
Proof.
  intros Hrun Hfire Hin.
  destruct (handle_execute_inv _ _ _ _ Hin) as (-> & -> & ->).
  destruct (fire_inv _ _ _ Hfire) as (Hr & _ & Hsent).
  simpl in Hr. repeat split.
  - exact Hr.
  - now apply (mounted_authorized before w Hrun).
  - exact Hsent.
Qed.

Lemma execute_needs_authorization_and_confirmation_witness :
  ConfirmPaypalPayment = ConfirmPaypalPayment
  /\ dialogOpen (state awaitingConfirmation) = true
  /\ In (OnAuthorize "PAYER-1") paypalUpToAuthorization
  /\ sent executing =
       (sent awaitingConfirmation ++ [executePaypalPayment "PAYER-1" "PAY-1"])%list
  /\ (forall s p, snd (handle s (OnAuthorize p)) = []).
Proof.
  apply (execute_needs_authorization_and_confirmation
           paypalUpToAuthorization ConfirmPaypalPayment
           awaitingConfirmation executing "PAYER-1" "PAY-1").
  - vm_compute. reflexivity.
  - vm_compute. reflexivity.
  - vm_compute. left. reflexivity.
Defined.

(** Every [executePaypalPayment] a run has sent comes after an [onAuthorize]
    that delivered its payer id and a later click on confirm. *)
Lemma sent_execute_history (es : list Event) :
  forall w payer_id payment_id,
    fireAll mounted es = Some w ->
    In (executePaypalPayment payer_id payment_id) (sent w) ->
    exists b1 b2 b3,
      es = (b1 ++ OnAuthorize payer_id :: b2 ++ ConfirmPaypalPayment :: b3)%list.
Proof.
  induction es as [|e es IH] using rev_ind; intros w' payer_id payment_id Hrun Hin.
  - injection Hrun as <-. contradiction.
  - destruct (fireAll_snoc _ _ _ _ Hrun) as (w & Hes & Hfire).
    destruct (fire_inv _ _ _ Hfire) as (_ & _ & Hsent).
    rewrite Hsent in Hin. apply in_app_or in Hin. destruct Hin as [Hin|Hin].
    + destruct (IH _ _ _ Hes Hin) as (b1 & b2 & b3 & ->).
      exists b1, b2, (b3 ++ [e])%list.
      rewrite <- !app_assoc. simpl. rewrite <- !app_assoc. reflexivity.
    + destruct (handle_execute_inv _ _ _ _ Hin) as (-> & -> & _).
      pose proof (mounted_authorized es w Hes) as Hauth.
      assert (Hopen : dialogOpen (state w) = true)
        by (destruct (fire_inv _ _ _ Hfire) as (Hr & _); exact Hr).
      destruct (in_split _ _ (Hauth Hopen)) as (b1 & b2 & ->).
      exists b1, b2, []. rewrite <- app_assoc. reflexivity.
Qed.

(** *** Credit-card payment *)

(** C5.  On a credit-card draft with amount ["10.00"] and CCV ["123"],
    [submitForm] sends exactly one request, [makePayment] with
    [{usd: "10.00", ccv: "123"}], and once that request succeeds the panel
    shows the success notice with no error and nothing submitting. *)
Theorem direct_card_payment_succeeds (s : State) :
  type s = CREDIT_CARD ->
  usd s = "10.00" ->
  ccv s = "123" ->
  snd (submitForm s) = [makePayment "10.00" "123"]
  /\ success (makePayment_then (fst (submitForm s))) = Some true
  /\ successNotice (makePayment_then (fst (submitForm s)))
     = Some "Payment successfully submitted."
  /\ submitting (makePayment_then (fst (submitForm s))) = false
  /\ errors (makePayment_then (fst (submitForm s))) = None.
Proof.
  intros _ Hu Hc.
  rewrite submitForm_filled by (rewrite ?Hu, ?Hc; discriminate).
  rewrite Hu, Hc.
  replace (toFixed2 "10.00") with "10.00" by (vm_compute; reflexivity).
  destruct s; repeat split.
Qed.

Lemma direct_card_payment_succeeds_witness :
  snd (submitForm (setState initial [Usd "10.00"; Ccv "123"]))
  = [makePayment "10.00" "123"]
  /\ success (makePayment_then (fst (submitForm (setState initial [Usd "10.00"; Ccv "123"]))))
     = Some true
  /\ successNotice
       (makePayment_then (fst (submitForm (setState initial [Usd "10.00"; Ccv "123"]))))
     = Some "Payment successfully submitted."
  /\ submitting
       (makePayment_then (fst (submitForm (setState initial [Usd "10.00"; Ccv "123"]))))
     = false
  /\ errors
       (makePayment_then (fst (submitForm (setState initial [Usd "10.00"; Ccv "123"]))))
     = None.
Proof.
  apply (direct_card_payment_succeeds (setState initial [Usd "10.00"; Ccv "123"]));
    reflexivity.
Defined.

(** The same scenario as a run of the event loop: one request sent in all,
    none left in flight. *)
Lemma direct_card_run :
  exists w,
    fireAll mounted
      [HandleUSDChange "10.00"; HandleCCVChange "123"; SubmitForm; MakePaymentThen]
    = Some w
    /\ sent w = [makePayment "10.00" "123"]
    /\ inflight w = []
    /\ successNotice (state w) = Some "Payment successfully submitted.".
Proof. eexists. repeat split; vm_compute; reflexivity. Qed.

(** *** The execute request and its outcome *)

Lemma confirm_sends_one_execute (s : State) :
  confirmPaypalPayment s =
    (setState s [IsExecutingPaypalPayment true],
     [executePaypalPayment (payerID s) (paymentID s)]).
Proof. reflexivity. Qed.

Lemma execute_success_closes (s : State) :
  let s' := executePaypalPayment_then s in
  dialogOpen s' = false
  /\ isExecutingPaypalPayment s' = false
  /\ usd s' = EmptyString
  /\ successNotice s' = Some "Payment successfully submitted.".
Proof. destruct s; repeat split. Qed.

(** C6, the failing run.  A PayPal payment of 10.00 USD is staged, authorized
    and confirmed, and the execute request is rejected: one execute request
    was sent with the staged payment and the payer, the amount is kept and
    the error is set, but the confirmation dialog is still open and
    [isExecutingPaypalPayment] is still set: the [catch] callback of
    [confirmPaypalPayment] clears [submitting] instead. *)
Theorem execute_failure_leaves_dialog_open :
  exists w,
    fireAll mounted
      (paypalUpToAuthorization ++ [ConfirmPaypalPayment; ExecutePaypalPaymentCatch None])
    = Some w
    /\ sent w =
         [stagePaypalPayment "https://cloud.linode.com/billing"
            "https://cloud.linode.com/billing" "10.00";
          executePaypalPayment "PAYER-1" "PAY-1"]
    /\ inflight w = []
    /\ usd (state w) = "10.00"
    /\ errors (state w)
       = Some [{| field := None; reason := "Unable to make a payment at this time." |}]
    /\ dialogOpen (state w) = true
    /\ isExecutingPaypalPayment (state w) = true
    /\ rendered (state w) ConfirmPaypalPayment = true.
Proof. eexists. repeat split; vm_compute; reflexivity. Qed.

(** C9, the failing case.  Whatever the state in which the user confirms and
    whatever the rejection of the execute request carries, after the [catch]
    callback [isExecutingPaypalPayment] is still set and the dialog is as
    open as it was; the callback clears [submitting], which
    [confirmPaypalPayment] never sets, where the [then] callback clears
    [isExecutingPaypalPayment] and closes the dialog. *)
Theorem execute_failure_keeps_busy_flag (s : State) (error : Rejection) :
  let failed := executePaypalPayment_catch error (fst (confirmPaypalPayment s)) in
  let succeeded := executePaypalPayment_then (fst (confirmPaypalPayment s)) in
  isExecutingPaypalPayment failed = true
  /\ dialogOpen failed = dialogOpen s
  /\ submitting failed = false
  /\ isExecutingPaypalPayment succeeded = false
  /\ dialogOpen succeeded = false.
Proof. destruct s; repeat split. Qed.

(** X20.  The failures of the two other requests leave no flag set that was
    not set before: a rejected [makePayment] or [stagePaypalPayment] clears
    the [submitting] its handler raised and touches neither
    [isExecutingPaypalPayment] nor the dialog. *)
Lemma other_failures_clear_submitting (s : State) (error : Rejection) :
  submitting (makePayment_catch error (fst (submitForm s))) = false
  /\ submitting (stagePaypalPayment_catch error (fst (payment s))) = false
  /\ isExecutingPaypalPayment (makePayment_catch error (fst (submitForm s)))
     = isExecutingPaypalPayment s
  /\ isExecutingPaypalPayment (stagePaypalPayment_catch error (fst (payment s)))
     = isExecutingPaypalPayment s
  /\ dialogOpen (makePayment_catch error (fst (submitForm s))) = dialogOpen s
  /\ dialogOpen (stagePaypalPayment_catch error (fst (payment s))) = dialogOpen s.
Proof.
  destruct s; unfold submitForm; simpl.
  destruct (negb _); repeat split.
Qed.

(** *** Cancelling *)

(** C7, as the code has it.  [closeDialog] does the same in every state,
    executing or not: it closes the dialog and makes the success notice read
    "Payment Cancelled"; it sends nothing, settles nothing, and leaves
    [isExecutingPaypalPayment] as it was. *)
Theorem closeDialog_always_reports_cancelled (s : State) (pending : list Call) :
  successNotice (closeDialog s) = Some "Payment Cancelled"
  /\ dialogOpen (closeDialog s) = false
  /\ isExecutingPaypalPayment (closeDialog s) = isExecutingPaypalPayment s
  /\ handle s CloseDialog = (closeDialog s, [])
  /\ awaited pending CloseDialog = Some pending.
Proof. destruct s; repeat split. Qed.

(** C7 fails when the user cancels right after confirming: the execute
    request is in flight and [isExecutingPaypalPayment] is set, and the notice
    is the one of a cancellation before any confirmation. *)
Lemma cancel_while_executing_reads_cancelled :
  exists w w',
    fireAll mounted (paypalUpToAuthorization ++ [ConfirmPaypalPayment; CloseDialog])
    = Some w
    /\ isExecutingPaypalPayment (state w) = true
    /\ inflight w = [executePaypalPayment "PAYER-1" "PAY-1"]
    /\ successNotice (state w) = Some "Payment Cancelled"
    /\ fireAll mounted (paypalUpToAuthorization ++ [CloseDialog]) = Some w'
    /\ successNotice (state w') = successNotice (state w).
Proof. eexists. eexists. repeat split; vm_compute; reflexivity. Qed.

(** *** The staged payment *)

(** C8, as the code has it.  [paymentID] is written by the [then] callback of
    the stage request and by nothing else, [payerID] by [onAuthorize] and by
    nothing else: every other handler and callback, the execute callbacks,
    [closeDialog], [onCancel] and [resetForm] among them, leaves both as they
    were. *)
Theorem staged_payment_is_only_overwritten (s : State) (e : Event) :
  paymentID (fst (handle s e))
  = match e with
    | StagePaypalPaymentThen payment_id => payment_id
    | _ => paymentID s
    end
  /\ payerID (fst (handle s e))
     = match e with
       | OnAuthorize payer_id => payer_id
       | _ => payerID s
       end.
Proof.
  destruct s, e; simpl; try (split; reflexivity).
  - unfold componentDidUpdate; simpl.
    destruct (negb showPaypal0 && isScriptLoadSucceed); split; reflexivity.
  - unfold handleUSDChange; simpl.
    destruct (PaymentType_eqb type0 PAYPAL && _); split; reflexivity.
  - unfold submitForm; simpl.
    destruct (negb _); split; reflexivity.
Qed.

(** C8 fails after a completed run and after a cancelled one, each followed
    by [resetForm]: the state still holds the payment id and the payer id of
    the run. *)
Lemma staged_payment_outlives_the_run :
  (exists w,
      fireAll mounted
        (paypalUpToAuthorization
           ++ [ConfirmPaypalPayment; ExecutePaypalPaymentThen; ResetForm]) = Some w
      /\ inflight w = []
      /\ paymentID (state w) = "PAY-1"
      /\ payerID (state w) = "PAYER-1")
  /\ (exists w,
        fireAll mounted (paypalUpToAuthorization ++ [CloseDialog; ResetForm]) = Some w
        /\ sent w =
             [stagePaypalPayment "https://cloud.linode.com/billing"
                "https://cloud.linode.com/billing" "10.00"]
        /\ paymentID (state w) = "PAY-1"
        /\ payerID (state w) = "PAYER-1").
Proof. split; eexists; repeat split; vm_compute; reflexivity. Qed.

(** *** Facts on the numeric conversions *)

Lemma round_half_even_lower (n d : Z) : n / d <= JS.round_half_even n d.
Proof.
  unfold JS.round_half_even.
  destruct (2 * (n mod d) ?= d); [destruct (Z.even (n / d))| |]; lia.
Qed.

Lemma round_half_even_unit (n : Z) : JS.round_half_even n 1 = n.
Proof.
  unfold JS.round_half_even. rewrite Z.mod_1_r, Z.div_1_r. reflexivity.
Qed.

(** An integer read by [parseInt] is at least 5 as a Number exactly when it
    is at least 5 as an integer and positive. *)
Lemma toDouble_ge_5 (neg : bool) (n : Z) :
  0 <= n ->
  JS.geInteger (JS.toDouble neg n 1) 5 = negb neg && (5 <=? n).
Proof.
  intros Hn. unfold JS.toDouble.
  destruct (Z.eqb_spec n 0) as [->|Hn0].
  { unfold JS.geInteger. destruct neg; reflexivity. }
  assert (Hpos : 0 < n) by lia.
  pose proof (Z.log2_spec n Hpos) as [Hlo Hhi].
  pose proof (Z.log2_nonneg n) as Hl.
  unfold JS.floor_log2_ratio. change (Z.log2 1) with 0. rewrite Z.sub_0_r.
  destruct (Z.leb_spec 0 (Z.log2 n)); [|lia].
  rewrite Z.mul_1_l. destruct (Z.leb_spec (2 ^ Z.log2 n) n); [|lia].
  set (l := Z.log2 n) in *.
  rewrite Z.max_l by lia.
  destruct (Z.leb_spec 0 (l - 52)) as [Hq|Hq].
  - (* at least 2^52: the mantissa is rounded *)
    rewrite Z.mul_1_l.
    pose proof (round_half_even_lower n (2 ^ (l - 52))) as Hm.
    assert (Hp : 0 < 2 ^ (l - 52)) by (apply Z.pow_pos_nonneg; lia).
    assert (Hdiv : 2 ^ 52 <= n / 2 ^ (l - 52)).
    { apply Z.div_le_lower_bound; [exact Hp|].
      rewrite <- Z.pow_add_r by lia. replace (l - 52 + 52) with l by lia. exact Hlo. }
    set (m := JS.round_half_even n (2 ^ (l - 52))) in *.
    assert (H52 : 2 ^ 52 = 4503599627370496) by reflexivity.
    assert (Hn5 : 5 <= n).
    { assert (2 ^ 52 <= 2 ^ l) by (apply Z.pow_le_mono_r; lia). lia. }
    destruct (Z.eqb_spec m 0); [lia|].
    assert (Hge : forall m' q', 2 ^ 52 <= m' -> 0 <= q' ->
              JS.geInteger (if 971 <? q' then JS.Infinity neg else JS.Finite neg m' q') 5
              = negb neg && (5 <=? n)).
    { intros m' q' Hm' Hq'.
      replace (5 <=? n) with true by (symmetry; apply Z.leb_le; exact Hn5).
      rewrite andb_true_r.
      destruct (971 <? q'); [reflexivity|].
      unfold JS.geInteger.
      destruct (Z.leb_spec 0 q'); [|lia].
      assert (1 <= 2 ^ q') by (apply Z.lt_pred_le, Z.pow_pos_nonneg; lia).
      set (P := 2 ^ q') in *.
      destruct neg; cbn [negb]; [apply Z.leb_gt | apply Z.leb_le]; nia. }
    destruct (Z.eqb_spec m (2 ^ 53)); apply Hge; lia.
  - (* below 2^52: the integer is a Number *)
    rewrite round_half_even_unit.
    assert (Hp : 0 < 2 ^ (- (l - 52))) by (apply Z.pow_pos_nonneg; lia).
    destruct (Z.eqb_spec (n * 2 ^ (- (l - 52))) 0); [nia|].
    assert (Hlt : n * 2 ^ (- (l - 52)) < 2 ^ 53).
    { replace (2 ^ 53) with (2 ^ (l + 1) * 2 ^ (- (l - 52))).
      - apply Z.mul_lt_mono_pos_r; [exact Hp|]. unfold Z.succ in Hhi. exact Hhi.
      - rewrite <- Z.pow_add_r by lia. f_equal. lia. }
    destruct (Z.eqb_spec (n * 2 ^ (- (l - 52))) (2 ^ 53)); [lia|].
    destruct (Z.ltb_spec 971 (l - 52)); [lia|].
    unfold JS.geInteger.
    destruct (Z.leb_spec 0 (l - 52)); [lia|].
    set (P := 2 ^ (- (l - 52))) in *.
    destruct neg; cbn [negb andb].
    + apply Z.leb_gt. nia.
    + destruct (Z.leb_spec 5 n); [apply Z.leb_le | apply Z.leb_gt]; nia.
Qed.

Lemma digitValue_nonneg (radix : Z) (c : ascii) (v : Z) :
  JS.digitValue radix c = Some v -> 0 <= v.
Proof.
  unfold JS.digitValue.
  set (n := JS.code c).
  destruct (Z.leb_spec 48 n); simpl;
    [destruct (Z.leb_spec n 57); simpl|];
    try (destruct (Z.leb_spec 97 n); simpl;
         [destruct (Z.leb_spec n 122); simpl|]);
    try (destruct (Z.leb_spec 65 n); simpl;
         [destruct (Z.leb_spec n 90); simpl|]);
    match goal with
    | |- (if ?b then _ else _) = _ -> _ => destruct b; intros E; inversion E; lia
    end.
Qed.

Lemma readDigits_nonneg (radix : Z) (l : list ascii) :
  forall acc n, 0 <= radix -> 0 <= acc ->
    0 <= fst (fst (JS.readDigits radix l acc n)).
Proof.
  induction l as [|c l IH]; intros acc n Hr Ha; simpl.
  - exact Ha.
  - destruct (JS.digitValue radix c) as [v|] eqn:E; simpl; [|exact Ha].
    apply IH; [exact Hr|]. pose proof (digitValue_nonneg _ _ _ E). nia.
Qed.

(** *** The amount as it is read and as it is sent *)

Lemma readDigits_count (radix : Z) (l : list ascii) :
  forall acc n, n <= snd (fst (JS.readDigits radix l acc n)).
Proof.
  induction l as [|c l IH]; intros acc n; simpl; [lia|].
  destruct (JS.digitValue radix c); simpl; [|lia].
  specialize (IH (acc * radix + z) (n + 1)). lia.
Qed.

Lemma parseInt_threshold (value : string) :
  JS.geInteger (JS.parseInt value 10) 5
  = match leadingInteger value with Some n => 5 <=? n | None => false end.
Proof.
  unfold JS.parseInt, leadingInteger.
  destruct (JS.readSign (JS.trimStart (JS.chars value))) as [neg l].
  cbn [Z.ltb Z.eqb Z.compare Pos.compare Pos.compare_cont orb andb Pos.eqb].
  pose proof (readDigits_nonneg 10 l 0 0 ltac:(lia) ltac:(lia)) as Hv.
  pose proof (readDigits_count 10 l 0 0) as Hc.
  destruct (JS.readDigits 10 l 0 0) as [[n count] rest]. simpl in Hv, Hc.
  destruct (Z.eqb_spec count 0) as [->|Hc0].
  - reflexivity.
  - destruct (Z.ltb_spec 0 count); [|lia].
    rewrite toDouble_ge_5 by exact Hv.
    destruct neg; cbn [negb andb]; [|reflexivity].
    symmetry. apply Z.leb_gt. lia.
Qed.

Lemma trimStart_white (l : list ascii) :
  forallb JS.isStrWhiteSpaceChar l = true -> JS.trimStart l = [].
Proof.
  induction l as [|c l IH]; simpl; [reflexivity|].
  destruct (JS.isStrWhiteSpaceChar c); simpl; [exact IH | discriminate].
Qed.

Lemma toFixed2_white (value : string) :
  isWhiteSpace value = true -> toFixed2 value = "0.00".
Proof.
  unfold isWhiteSpace, toFixed2, JS.StringToNumber, JS.trim. intros H.
  rewrite (trimStart_white _ H). vm_compute. reflexivity.
Qed.

Lemma allFrom_spec (f : Z -> bool) (depth : nat) :
  forall lo n,
    allFrom f depth lo = true ->
    lo <= n < lo + 2 ^ Z.of_nat depth ->
    f n = true.
Proof.
  induction depth as [|d IH]; intros lo n H Hn.
  - simpl in *. replace n with lo by lia. exact H.
  - cbn [allFrom] in H. apply andb_true_iff in H. destruct H as [H1 H2].
    rewrite Nat2Z.inj_succ, Z.pow_succ_r in Hn by lia.
    destruct (Z.lt_ge_cases n (lo + 2 ^ Z.of_nat d)).
    + apply (IH lo); [exact H1 | lia].
    + apply (IH (lo + 2 ^ Z.of_nat d)); [exact H2 | lia].
Qed.

Lemma cents_checked :
  allFrom (fun k => String.eqb (toFixed2 (cents k)) (cents k)) 14 0 = true.
Proof. vm_cast_no_check (eq_refl true). Qed.

(** *** The amount threshold of the PayPal button *)

(** X1.  Whatever the event, [paypalSubmitEnabled] afterwards is what it was,
    or it has been raised by a keystroke in the amount field made while the
    type is PayPal, on an amount that starts (after white space and a sign)
    with an integer of at least 5 - whatever follows the digits.  So an
    amount typed before PayPal is chosen does not raise it, and nothing but
    the leading integer of the amount is compared. *)
Theorem paypalSubmitEnabled_step (s : State) (e : Event) :
  paypalSubmitEnabled (fst (handle s e))
  = paypalSubmitEnabled s
    || match e with
       | HandleUSDChange value =>
           PaymentType_eqb (type s) PAYPAL
           && match leadingInteger value with
              | Some n => 5 <=? n
              | None => false
              end
       | _ => false
       end.
Proof.
  destruct e; try (destruct s; simpl; now rewrite orb_false_r).
  - unfold handle, fst, componentDidUpdate.
    destruct (negb (showPaypal s) && isScriptLoadSucceed);
      destruct s; simpl; now rewrite orb_false_r.
  - unfold handle, fst, handleUSDChange. rewrite parseInt_threshold.
    destruct (PaymentType_eqb (type s) PAYPAL && _);
      destruct s; simpl; [now rewrite orb_true_r | now rewrite orb_false_r].
  - unfold handle, submitForm.
    destruct (negb (JS.isNil _)); destruct s; simpl; now rewrite orb_false_r.
Qed.

(** X2.  [paypalSubmitEnabled] is never read: with the flag forced to either
    value, the same controls are offered, every handler and callback sends
    the same requests, and the next state is the same but for the flag. *)
Theorem paypalSubmitEnabled_gates_nothing (s : State) (forced : bool) (e : Event) :
  let s' := setState s [PaypalSubmitEnabled forced] in
  rendered s' e = rendered s e
  /\ snd (handle s' e) = snd (handle s e)
  /\ (forall b,
        setState (fst (handle s' e)) [PaypalSubmitEnabled b]
        = setState (fst (handle s e)) [PaypalSubmitEnabled b])
  /\ successNotice s' = successNotice s
  /\ confirmText s' = confirmText s.
Proof.
  destruct s. simpl. repeat split.
  - destruct e; simpl; try reflexivity.
    unfold submitForm; simpl. destruct (negb (JS.isNil _)); reflexivity.
  - intros b. destruct e; simpl; try reflexivity.
    + unfold componentDidUpdate; simpl.
      destruct (negb showPaypal0 && isScriptLoadSucceed); reflexivity.
    + unfold handleUSDChange; simpl.
      destruct (_ && JS.geInteger _ _); reflexivity.
    + unfold submitForm; simpl. destruct (negb (JS.isNil _)); reflexivity.
Qed.

(** *** Amounts on their way to the gateway *)

Lemma cents_not_empty (n : Z) : cents n <> EmptyString.
Proof.
  unfold cents. destruct (JS.decimal (n / 100)); discriminate.
Qed.

Lemma toFixed2_cents (n : Z) : 0 <= n < 10000 -> toFixed2 (cents n) = cents n.
Proof.
  intros H. apply String.eqb_eq.
  apply (allFrom_spec (fun k => String.eqb (toFixed2 (cents k)) (cents k)) 14 0 n
           cents_checked).
  change (2 ^ Z.of_nat 14) with 16384. lia.
Qed.

(** X3.  An amount from 0.00 to 99.99 written with two decimals goes to the
    gateway as it is written: [submitForm] (with a CCV) and [payment] send
    exactly the string typed. *)
Theorem two_decimal_amount_is_sent_unchanged (s : State) (n : Z) :
  0 <= n < 10000 ->
  usd s = cents n ->
  ccv s <> EmptyString ->
  snd (submitForm s) = [makePayment (cents n) (ccv s)]
  /\ snd (payment s)
     = [stagePaypalPayment "https://cloud.linode.com/billing"
          "https://cloud.linode.com/billing" (cents n)].
Proof.
  intros Hn Hu Hc.
  rewrite submitForm_filled by (rewrite ?Hu; auto using cents_not_empty).
  unfold payment. simpl. rewrite Hu, toFixed2_cents by exact Hn.
  split; reflexivity.
Qed.

Lemma two_decimal_amount_is_sent_unchanged_witness :
  snd (submitForm (setState initial [Usd "49.95"; Ccv "123"]))
  = [makePayment (cents 4995) (ccv (setState initial [Usd "49.95"; Ccv "123"]))]
  /\ snd (payment (setState initial [Usd "49.95"; Ccv "123"]))
     = [stagePaypalPayment "https://cloud.linode.com/billing"
          "https://cloud.linode.com/billing" (cents 4995)].
Proof.
  apply (two_decimal_amount_is_sent_unchanged
           (setState initial [Usd "49.95"; Ccv "123"]) 4995).
  - lia.
  - vm_compute. reflexivity.
  - simpl. discriminate.
Defined.

(** X4.  [payment] validates nothing: on an amount that is empty or all white
    space it stages a payment of 0.00, where [submitForm] refuses the empty
    amount but sends the white space, with a CCV, as 0.00 too. *)
Theorem blank_amount_is_staged_as_zero (s : State) :
  isWhiteSpace (usd s) = true ->
  snd (payment s)
  = [stagePaypalPayment "https://cloud.linode.com/billing"
       "https://cloud.linode.com/billing" "0.00"]
  /\ snd (submitForm s)
     = (if String.eqb (usd s) EmptyString || String.eqb (ccv s) EmptyString
        then []
        else [makePayment "0.00" (ccv s)]).
Proof.
  intros H. split.
  - unfold payment. simpl. now rewrite (toFixed2_white _ H).
  - destruct (String.eqb_spec (usd s) EmptyString) as [Hu|Hu];
      destruct (String.eqb_spec (ccv s) EmptyString) as [Hc|Hc]; simpl;
      try (destruct (submitForm_blank s) as (errs & E & _);
           [(now left) || (now right) | now rewrite E]).
    rewrite (submitForm_filled s Hu Hc). simpl. now rewrite (toFixed2_white _ H).
Qed.

Lemma blank_amount_is_staged_as_zero_witness :
  snd (payment (setState initial [Usd " "; Ccv "123"]))
  = [stagePaypalPayment "https://cloud.linode.com/billing"
       "https://cloud.linode.com/billing" "0.00"]
  /\ snd (submitForm (setState initial [Usd " "; Ccv "123"]))
     = (if String.eqb (usd (setState initial [Usd " "; Ccv "123"])) EmptyString
           || String.eqb (ccv (setState initial [Usd " "; Ccv "123"])) EmptyString
        then []
        else [makePayment "0.00" (ccv (setState initial [Usd " "; Ccv "123"]))]).
Proof.
  apply (blank_amount_is_staged_as_zero (setState initial [Usd " "; Ccv "123"])).
  vm_compute. reflexivity.
Defined.

(** *** Invariants of runs *)

Lemma handleAll_cons (s : State) (e : Event) (es : list Event) :
  handleAll s (e :: es)
  = (fst (handleAll (fst (handle s e)) es),
     (snd (handle s e) ++ snd (handleAll (fst (handle s e)) es))%list).
Proof.
  simpl. destruct (handle s e) as [s1 calls]. simpl.
  destruct (handleAll s1 es) as [s2 calls']. reflexivity.
Qed.

(** A property of the state that every allowed event keeps is kept by every
    sequence of allowed events. *)
Lemma handleAll_invariant (P : State -> Prop) (allowed : Event -> bool) :
  (forall s e, allowed e = true -> P s -> P (fst (handle s e))) ->
  forall es s, forallb allowed es = true -> P s -> P (fst (handleAll s es)).
Proof.
  intros Hstep. induction es as [|e es IH]; intros s Hes Hs.
  - exact Hs.
  - rewrite handleAll_cons. simpl in *.
    apply andb_true_iff in Hes. destruct Hes as [He Hes].
    apply IH; [exact Hes|]. now apply Hstep.
Qed.

Lemma fireAll_handleAll (es : list Event) :
  forall w w',
    fireAll w es = Some w' ->
    state w' = fst (handleAll (state w) es)
    /\ sent w' = (sent w ++ snd (handleAll (state w) es))%list.
Proof.
  induction es as [|e es IH]; intros w w' H.
  - injection H as <-. simpl. now rewrite app_nil_r.
  - simpl in H. destruct (fire w e) as [w1|] eqn:E; [|discriminate].
    destruct (fire_inv _ _ _ E) as (_ & Hs & Hsent).
    destruct (IH _ _ H) as (IHs & IHsent).
    rewrite handleAll_cons. simpl. rewrite <- Hs, IHs, IHsent, Hsent.
    now rewrite <- app_assoc.
Qed.



(** X6.  Once the PayPal script has loaded and [showPaypal] is set, it stays
    set through every handler and callback, and [componentDidUpdate] no
    longer touches the state: the update it once caused cannot repeat. *)
Theorem showPaypal_is_set_once (s : State) (es : list Event) (loaded : bool) :
  showPaypal s = true ->
  showPaypal (fst (handleAll s es)) = true
  /\ componentDidUpdate loaded (fst (handleAll s es)) = fst (handleAll s es).
Proof.
  intros H.
  assert (K : showPaypal (fst (handleAll s es)) = true).
  { apply (handleAll_invariant (fun s => showPaypal s = true) (fun _ => true)).
    - clear. intros s e _ H. destruct e; handler_cases s; auto.
    - clear. induction es; simpl; auto.
    - exact H. }
  split; [exact K|]. unfold componentDidUpdate. now rewrite K.
Qed.

Lemma showPaypal_is_set_once_witness :
  showPaypal
    (fst (handleAll (componentDidUpdate true initial)
            [HandleTypeChange PAYPAL; ResetForm; ComponentDidUpdate false])) = true
  /\ componentDidUpdate true
       (fst (handleAll (componentDidUpdate true initial)
               [HandleTypeChange PAYPAL; ResetForm; ComponentDidUpdate false]))
     = fst (handleAll (componentDidUpdate true initial)
              [HandleTypeChange PAYPAL; ResetForm; ComponentDidUpdate false]).
Proof.
  apply (showPaypal_is_set_once (componentDidUpdate true initial)
           [HandleTypeChange PAYPAL; ResetForm; ComponentDidUpdate false] true).
  reflexivity.
Defined.

(** *** The success notice *)

(** X7.  Only [resetForm] takes the success notice down: once [success] is
    set it stays set through every other handler and callback, a validation
    error or a rejected request included, so the notice is still shown. *)
Theorem success_is_cleared_by_reset_only (s : State) (es : list Event) :
  success s = Some true ->
  existsb isResetForm es = false ->
  success (fst (handleAll s es)) = Some true
  /\ successNotice (fst (handleAll s es)) <> None.
Proof.
  intros H Hes.
  assert (K : success (fst (handleAll s es)) = Some true).
  { apply (handleAll_invariant (fun s => success s = Some true)
             (fun e => negb (isResetForm e))).
    - clear. intros s e He H. destruct e; try discriminate; handler_cases s; auto.
    - clear H. induction es as [|e es IH]; simpl in *; [reflexivity|].
      apply orb_false_iff in Hes. destruct Hes as [-> Hes]. simpl. now apply IH.
    - exact H. }
  split; [exact K|]. unfold successNotice. rewrite K. discriminate.
Qed.

Lemma success_is_cleared_by_reset_only_witness :
  success
    (fst (handleAll (onCancel initial)
            [HandleUSDChange "10.00"; SubmitForm; HandleCCVChange "123"; SubmitForm;
             MakePaymentCatch None])) = Some true
  /\ successNotice
       (fst (handleAll (onCancel initial)
               [HandleUSDChange "10.00"; SubmitForm; HandleCCVChange "123"; SubmitForm;
                MakePaymentCatch None])) <> None.
Proof.
  apply (success_is_cleared_by_reset_only (onCancel initial)
           [HandleUSDChange "10.00"; SubmitForm; HandleCCVChange "123"; SubmitForm;
            MakePaymentCatch None]);
    reflexivity.
Defined.

(** X8.  When an earlier payment has succeeded or been cancelled and the form
    was not reset, submitting a card payment makes the notice read
    "Payment successfully submitted." before any response has come, and the
    notice still reads so, beside the error, after the request is
    rejected. *)
Theorem stale_success_notice_on_resubmit (s : State) (error : Rejection) :
  success s = Some true ->
  usd s <> EmptyString ->
  ccv s <> EmptyString ->
  successNotice (fst (submitForm s)) = Some "Payment successfully submitted."
  /\ successNotice (makePayment_catch error (fst (submitForm s)))
     = Some "Payment successfully submitted."
  /\ errors (makePayment_catch error (fst (submitForm s))) = Some (pathOrErrors error).
Proof.
  intros H Hu Hc. rewrite (submitForm_filled s Hu Hc).
  destruct s; simpl in *. unfold successNotice; simpl. rewrite H. repeat split.
Qed.

Lemma stale_success_notice_on_resubmit_witness :
  successNotice
    (fst (submitForm (setState (onCancel initial) [Usd "10.00"; Ccv "123"])))
  = Some "Payment successfully submitted."
  /\ successNotice
       (makePayment_catch None
          (fst (submitForm (setState (onCancel initial) [Usd "10.00"; Ccv "123"]))))
     = Some "Payment successfully submitted."
  /\ errors
       (makePayment_catch None
          (fst (submitForm (setState (onCancel initial) [Usd "10.00"; Ccv "123"]))))
     = Some (pathOrErrors None).
Proof.
  apply (stale_success_notice_on_resubmit
           (setState (onCancel initial) [Usd "10.00"; Ccv "123"]) None).
  - reflexivity.
  - simpl. discriminate.
  - simpl. discriminate.
Defined.

(** *** Requests and the flags that announce them *)

Lemma fire_inv_full (w w' : World) (e : Event) :
  fire w e = Some w' ->
  exists pending,
    rendered (state w) e = true
    /\ awaited (inflight w) e = Some pending
    /\ state w' = fst (handle (state w) e)
    /\ inflight w' = (pending ++ snd (handle (state w) e))%list
    /\ sent w' = (sent w ++ snd (handle (state w) e))%list.
Proof.
  unfold fire. intros H.
  destruct (rendered (state w) e); [|discriminate].
  destruct (awaited (inflight w) e) as [pending|]; [|discriminate].
  destruct (handle (state w) e) as [s calls].
  injection H as <-. exists pending. repeat split.
Qed.

Lemma settle_keeps (p : Call -> bool) (l : list Call) :
  forall l' c, settle p l = Some l' -> In c l -> p c = false -> In c l'.
Proof.
  induction l as [|x l IH]; intros l' c H Hin Hp; simpl in *; [contradiction|].
  destruct (p x) eqn:Px.
  - injection H as <-. destruct Hin as [->|Hin]; [congruence | exact Hin].
  - destruct (settle p l) as [l0|]; [|discriminate]. injection H as <-.
    destruct Hin as [->|Hin]; [now left | right; now apply IH].
Qed.

Lemma fire_keeps_submittingIsBacked (w w' : World) (e : Event) :
  fire w e = Some w' -> submittingIsBacked w -> submittingIsBacked w'.
Proof.
  intros H I. destruct (fire_inv_full _ _ _ H) as (pending & _ & Ha & Hs & Hi & _).
  unfold submittingIsBacked in *. rewrite Hs, Hi. clear Hs Hi H.
  destruct w as [s fl sn]. simpl in *.
  assert (Hold : forall calls,
             awaited fl e = Some fl ->
             submitting s = true ->
             exists c, In c (pending ++ calls)%list /\ raisesSubmitting c = true).
  { intros calls Hp Hsub. rewrite Hp in Ha. injection Ha as <-.
    destruct (I Hsub) as (c & Hc & Hr). exists c. split; [|exact Hr].
    apply in_or_app. now left. }
  assert (Hnew : forall c calls,
             raisesSubmitting c = true ->
             exists c', In c' (pending ++ c :: calls)%list /\ raisesSubmitting c' = true).
  { intros c calls Hr. exists c. split; [|exact Hr].
    apply in_or_app. right. now left. }
  destruct e; destruct s; simpl in *;
    try discriminate;
    try (intros Hsub; now apply Hold);
    try (intros _; now apply Hnew).
  - unfold componentDidUpdate; simpl.
    destruct (negb showPaypal0 && isScriptLoadSucceed); simpl;
      intros Hsub; now apply Hold.
  - unfold handleUSDChange; simpl.
    destruct (_ && JS.geInteger _ _); simpl; intros Hsub; now apply Hold.
  - unfold submitForm; simpl.
    destruct (negb (JS.isNil _)); simpl;
      [intros Hsub; now apply Hold | intros _; now apply Hnew].
  - (* the execute request succeeds *)
    intros Hsub. destruct (I Hsub) as (c & Hc & Hr). exists c. split; [|exact Hr].
    rewrite app_nil_r. apply (settle_keeps _ _ _ _ Ha Hc).
    unfold raisesSubmitting in Hr. destruct c; simpl in Hr |- *; congruence.
Qed.

Lemma fireAll_keeps_submittingIsBacked (es : list Event) :
  forall w w',
    fireAll w es = Some w' -> submittingIsBacked w -> submittingIsBacked w'.
Proof.
  induction es as [|e es IH]; intros w w' H I; simpl in H.
  - now injection H as <-.
  - destruct (fire w e) as [w1|] eqn:E; [|discriminate].
    apply (IH w1); [exact H|]. now apply (fire_keeps_submittingIsBacked w w1 e).
Qed.

(** X9.  In every run, while [submitting] is set (the submit button shows as
    loading) a [makePayment] or a [stagePaypalPayment] request is in flight:
    the flag is never left set with nothing to wait for. *)
Theorem submitting_means_request_in_flight (es : list Event) (w : World) :
  fireAll mounted es = Some w ->
  submitting (state w) = true ->
  existsb raisesSubmitting (inflight w) = true.
Proof.
  intros H Hsub.
  assert (I : submittingIsBacked w).
  { apply (fireAll_keeps_submittingIsBacked es mounted w H). discriminate. }
  apply existsb_exists. exact (I Hsub).
Qed.

Lemma submitting_means_request_in_flight_witness :
  existsb raisesSubmitting
    (inflight (after [HandleUSDChange "10.00"; HandleCCVChange "123"; SubmitForm]))
  = true.
Proof.
  apply (submitting_means_request_in_flight
           [HandleUSDChange "10.00"; HandleCCVChange "123"; SubmitForm]
           (after [HandleUSDChange "10.00"; HandleCCVChange "123"; SubmitForm])).
  - vm_compute. reflexivity.
  - vm_compute. reflexivity.
Defined.

(** *** Cancelling and confirming *)

Lemma executes_app (a b : list Call) :
  executes (a ++ b) = (executes a ++ executes b)%list.
Proof. apply filter_app. Qed.

Lemma fire_closed_dialog (w w' : World) (e : Event) :
  dialogOpen (state w) = false ->
  isOnAuthorize e = false ->
  fire w e = Some w' ->
  dialogOpen (state w') = false /\ executes (sent w') = executes (sent w).
Proof.
  intros Hd He H.
  destruct (fire_inv _ _ _ H) as (Hr & Hs & Hsent).
  rewrite Hs, Hsent, executes_app. clear H Hs Hsent.
  destruct w as [s fl sn]. simpl in *.
  destruct e; destruct s; simpl in *; subst;
    try discriminate;
    try (split; [reflexivity | now rewrite app_nil_r]).
  - unfold componentDidUpdate; simpl.
    destruct (negb showPaypal0 && isScriptLoadSucceed);
      (split; [reflexivity | now rewrite app_nil_r]).
  - unfold handleUSDChange; simpl.
    destruct (_ && JS.geInteger _ _); (split; [reflexivity | now rewrite app_nil_r]).
  - unfold submitForm; simpl.
    destruct (negb (JS.isNil _)); (split; [reflexivity | now rewrite app_nil_r]).
Qed.

(** X10.  With the confirmation dialog closed - on a fresh panel, after
    [closeDialog], after a successful execute - no execute request is sent,
    and the dialog stays closed, for as long as the widget does not call
    [onAuthorize]: whatever else happens, [onCancel] included, and although
    the payment id and the payer id of the last run are still in the
    state. *)
Theorem no_execute_while_dialog_closed (es : list Event) :
  forall w w',
    dialogOpen (state w) = false ->
    fireAll w es = Some w' ->
    existsb isOnAuthorize es = false ->
    executes (sent w') = executes (sent w) /\ dialogOpen (state w') = false.
Proof.
  induction es as [|e es IH]; intros w w' Hd H Hes; simpl in *.
  - injection H as <-. now split.
  - destruct (fire w e) as [w1|] eqn:E; [|discriminate].
    apply orb_false_iff in Hes. destruct Hes as [He Hes].
    destruct (fire_closed_dialog w w1 e Hd He E) as (Hd1 & Hx).
    destruct (IH w1 w' Hd1 H Hes) as (Hx' & Hd').
    split; [congruence | exact Hd'].
Qed.

Lemma no_execute_while_dialog_closed_witness :
  executes
    (sent (after (paypalUpToAuthorization
                    ++ [CloseDialog; OnCancel; HandleUSDChange "20"; Payment])))
  = executes (sent (after (paypalUpToAuthorization ++ [CloseDialog])))
  /\ dialogOpen
       (state (after (paypalUpToAuthorization
                        ++ [CloseDialog; OnCancel; HandleUSDChange "20"; Payment])))
     = false.
Proof.
  apply (no_execute_while_dialog_closed [OnCancel; HandleUSDChange "20"; Payment]
           (after (paypalUpToAuthorization ++ [CloseDialog]))
           (after (paypalUpToAuthorization
                     ++ [CloseDialog; OnCancel; HandleUSDChange "20"; Payment]))).
  - vm_compute. reflexivity.
  - vm_compute. reflexivity.
  - reflexivity.
Defined.

Lemma handleAll_ids (es : list Event) :
  forall s,
    paymentID (fst (handleAll s es))
    = fold_left
        (fun id e => match e with StagePaypalPaymentThen id' => id' | _ => id end)
        es (paymentID s)
    /\ payerID (fst (handleAll s es))
       = fold_left (fun id e => match e with OnAuthorize id' => id' | _ => id end)
           es (payerID s).
Proof.
  induction es as [|e es IH]; intros s; [now split|].
  rewrite handleAll_cons. simpl fst. simpl fold_left.
  destruct (IH (fst (handle s e))) as (-> & ->).
  assert (H : paymentID (fst (handle s e))
              = match e with StagePaypalPaymentThen id' => id' | _ => paymentID s end
              /\ payerID (fst (handle s e))
                 = match e with OnAuthorize id' => id' | _ => payerID s end).
  { clear. destruct e; handler_cases s; split; reflexivity. }
  destruct H as (-> & ->). split; reflexivity.
Qed.

(** X11.  In every run the execute request that a click on confirm sends
    names the payment of the latest stage response and the payer of the
    latest authorization callback of the run, and nothing else is sent by
    that click. *)
Theorem execute_names_latest_payment_and_payer (es : list Event) (w w' : World) :
  fireAll mounted es = Some w ->
  fire w ConfirmPaypalPayment = Some w' ->
  sent w' = (sent w ++ [executePaypalPayment (lastPayer es) (lastStaged es)])%list.
Proof.
  intros H Hf.
  destruct (fireAll_handleAll _ _ _ H) as (Hs & _).
  destruct (fire_inv _ _ _ Hf) as (_ & _ & Hsent).
  destruct (handleAll_ids es initial) as (Hpay & Hpayer).
  rewrite Hsent. simpl. rewrite Hs. simpl state.
  unfold lastPayer, lastStaged. now rewrite Hpay, Hpayer.
Qed.

Lemma execute_names_latest_payment_and_payer_witness :
  sent executing
  = (sent awaitingConfirmation
       ++ [executePaypalPayment (lastPayer paypalUpToAuthorization)
             (lastStaged paypalUpToAuthorization)])%list.
Proof.
  apply (execute_names_latest_payment_and_payer paypalUpToAuthorization
           awaitingConfirmation executing).
  - vm_compute. reflexivity.
  - vm_compute. reflexivity.
Defined.

(** X12.  A cancellation reported by the widget and one made in the dialog
    show the same notice, but only the second closes the dialog:
    [closeDialog] is [onCancel] followed by the closing, and after [onCancel]
    alone an open dialog is still open, with its confirm button. *)
Theorem onCancel_does_not_close_the_dialog (s : State) :
  closeDialog s = setState (onCancel s) [DialogOpen false]
  /\ successNotice (onCancel s) = Some "Payment Cancelled"
  /\ successNotice (closeDialog s) = successNotice (onCancel s)
  /\ dialogOpen (onCancel s) = dialogOpen s
  /\ rendered (onCancel s) ConfirmPaypalPayment = rendered s ConfirmPaypalPayment
  /\ snd (handle s OnCancel) = [].
Proof. destruct s; repeat split. Qed.

(** *** What the confirmation dialog and the notices say *)

Lemma handle_keeps_draft (s : State) (e : Event) :
  editsDraft e = false ->
  usd (fst (handle s e)) = usd s /\ type (fst (handle s e)) = type s.
Proof.
  intros He. destruct e; try discriminate; handler_cases s; split; reflexivity.
Qed.

(** X13.  The confirmation dialog shows the amount of the draft as it is when
    the dialog is rendered.  When, from the click on the PayPal button on,
    nothing has written the amount or the type (no keystroke in the amount,
    no change of type, no reset, no completed execute), the dialog names a
    PayPal payment of exactly the amount that click sent to be staged. *)
Theorem confirmation_shows_the_staged_amount (w w1 w2 : World) (es : list Event) :
  fire w Payment = Some w1 ->
  fireAll w1 es = Some w2 ->
  existsb editsDraft es = false ->
  exists amount,
    sent w1
    = (sent w ++ [stagePaypalPayment "https://cloud.linode.com/billing"
                    "https://cloud.linode.com/billing" amount])%list
    /\ confirmText (state w2)
       = "Confirm PayPal payment for $" ++ amount ++ " USD" ++ lineBreak
         ++ "            to Linode LLC?".
Proof.
  intros Hf Hrun Hes.
  destruct (fire_inv _ _ _ Hf) as (Hr & Hs1 & Hsent).
  destruct (fireAll_handleAll _ _ _ Hrun) as (Hs2 & _).
  exists (toFixed2 (usd (state w))). split; [exact Hsent|].
  assert (K : usd (state w2) = usd (state w) /\ type (state w2) = PAYPAL).
  { rewrite Hs2.
    apply (handleAll_invariant
             (fun s => usd s = usd (state w) /\ type s = PAYPAL)
             (fun e => negb (editsDraft e))).
    - intros s e He [Hu Ht]. apply negb_true_iff in He.
      destruct (handle_keeps_draft s e He) as (-> & ->). now split.
    - clear - Hes. induction es as [|e es IH]; simpl in *; [reflexivity|].
      apply orb_false_iff in Hes. destruct Hes as [-> Hes]. simpl. now apply IH.
    - rewrite Hs1. simpl in Hr.
      destruct (state w) as [t ? ? ? ? ? ? ? ? ? ? ? ?]. simpl in *.
      destruct t; [discriminate | now split]. }
  destruct K as [Hu Ht].
  unfold confirmText, typeLabel. rewrite Hu, Ht. reflexivity.
Qed.

Lemma confirmation_shows_the_staged_amount_witness :
  exists amount,
    sent (after [ComponentDidUpdate true; HandleTypeChange PAYPAL;
                 HandleUSDChange "10.00"; Payment])
    = (sent (after [ComponentDidUpdate true; HandleTypeChange PAYPAL;
                    HandleUSDChange "10.00"])
         ++ [stagePaypalPayment "https://cloud.linode.com/billing"
               "https://cloud.linode.com/billing" amount])%list
    /\ confirmText (state awaitingConfirmation)
       = "Confirm PayPal payment for $" ++ amount ++ " USD" ++ lineBreak
         ++ "            to Linode LLC?".
Proof.
  apply (confirmation_shows_the_staged_amount
           (after [ComponentDidUpdate true; HandleTypeChange PAYPAL;
                   HandleUSDChange "10.00"])
           (after [ComponentDidUpdate true; HandleTypeChange PAYPAL;
                   HandleUSDChange "10.00"; Payment])
           awaitingConfirmation
           [StagePaypalPaymentThen "PAY-1"; OnAuthorize "PAYER-1"]).
  - vm_compute. reflexivity.
  - vm_compute. reflexivity.
  - reflexivity.
Defined.

Lemma handle_keeps_knownMessage (s : State) (e : Event) :
  knownMessage (successMessage s) = true ->
  knownMessage (successMessage (fst (handle s e))) = true.
Proof.
  intros H. destruct e; handler_cases s; auto.
Qed.

(** X14.  The success notice has two texts and no other: from a state whose
    message is one the component sets (a fresh panel has none), whatever the
    handlers and callbacks that follow, the notice is absent, or reads
    "Payment successfully submitted.", or reads "Payment Cancelled". *)
Theorem success_notice_has_two_texts (s : State) (es : list Event) :
  knownMessage (successMessage s) = true ->
  successNotice (fst (handleAll s es)) = None
  \/ successNotice (fst (handleAll s es)) = Some "Payment successfully submitted."
  \/ successNotice (fst (handleAll s es)) = Some "Payment Cancelled".
Proof.
  intros H.
  assert (K : knownMessage (successMessage (fst (handleAll s es))) = true).
  { apply (handleAll_invariant (fun s => knownMessage (successMessage s) = true)
             (fun _ => true)).
    - intros s0 e _. apply handle_keeps_knownMessage.
    - clear. induction es; simpl; auto.
    - exact H. }
  unfold successNotice.
  destruct (success (fst (handleAll s es))) as [[|]|]; auto.
  destruct (successMessage (fst (handleAll s es))) as [m|]; auto.
  unfold knownMessage in K.
  destruct (String.eqb_spec m EmptyString) as [Hm|Hm]; auto.
  simpl in K. apply String.eqb_eq in K. rewrite K. auto.
Qed.

Lemma success_notice_has_two_texts_witness :
  successNotice (fst (handleAll initial [OnCancel; ResetForm; OnCancel])) = None
  \/ successNotice (fst (handleAll initial [OnCancel; ResetForm; OnCancel]))
     = Some "Payment successfully submitted."
  \/ successNotice (fst (handleAll initial [OnCancel; ResetForm; OnCancel]))
     = Some "Payment Cancelled".
Proof.
  apply (success_notice_has_two_texts initial [OnCancel; ResetForm; OnCancel]).
  reflexivity.
Defined.

(** *** Resetting the form *)

(** X15.  [resetForm] leaves a blank credit-card form: no notice, the submit
    button offered, and a submit that sends nothing and reports both fields
    blank; resetting twice is resetting once.  It does not end what is going
    on: the busy flags, an open confirmation dialog and the requests in
    flight are as they were. *)
Theorem resetForm_blanks_the_form_only (s : State) (pending : list Call) :
  successNotice (resetForm s) = None
  /\ rendered (resetForm s) SubmitForm = true
  /\ snd (submitForm (resetForm s)) = []
  /\ option_map (map field) (errors (fst (submitForm (resetForm s))))
     = Some [Some "usd"; Some "ccv"]
  /\ resetForm (resetForm s) = resetForm s
  /\ submitting (resetForm s) = submitting s
  /\ isExecutingPaypalPayment (resetForm s) = isExecutingPaypalPayment s
  /\ dialogOpen (resetForm s) = dialogOpen s
  /\ awaited pending ResetForm = Some pending.
Proof. destruct s; repeat split. Qed.

(** *** One request per action *)

Lemma handle_calls (s : State) (e : Event) :
  List.length (executes (snd (handle s e))) = count isConfirm [e]
  /\ List.length (stages (snd (handle s e))) = count isPayment [e]
  /\ (List.length (makePayments (snd (handle s e))) <= count isSubmitForm [e])%nat
  /\ List.length (snd (handle s e))
     = (List.length (executes (snd (handle s e)))
        + List.length (stages (snd (handle s e)))
        + List.length (makePayments (snd (handle s e))))%nat.
Proof.
  unfold count, executes, stages, makePayments.
  destruct e; try (simpl; repeat split; lia).
  unfold handle, submitForm.
  destruct (negb (JS.isNil _)); simpl; repeat split; lia.
Qed.

(** X16.  Requests are sent by user actions only, one at most per action, and
    never again: over any sequence of handlers and callbacks there are as
    many execute requests as clicks on confirm, as many stage requests as
    clicks on the PayPal button, at most as many [makePayment] requests as
    clicks on submit, and no other request. *)
Theorem one_request_per_action (s : State) (es : list Event) :
  List.length (executes (snd (handleAll s es))) = count isConfirm es
  /\ List.length (stages (snd (handleAll s es))) = count isPayment es
  /\ (List.length (makePayments (snd (handleAll s es))) <= count isSubmitForm es)%nat
  /\ List.length (snd (handleAll s es))
     = (List.length (executes (snd (handleAll s es)))
        + List.length (stages (snd (handleAll s es)))
        + List.length (makePayments (snd (handleAll s es))))%nat.
Proof.
  revert s. induction es as [|e es IH]; intros s.
  - simpl. repeat split; lia.
  - rewrite handleAll_cons. simpl snd.
    destruct (IH (fst (handle s e))) as (I1 & I2 & I3 & I4).
    destruct (handle_calls s e) as (H1 & H2 & H3 & H4).
    unfold executes, stages, makePayments, count in *.
    rewrite !filter_app, !length_app.
    change (e :: es) with ([e] ++ es)%list.
    rewrite !filter_app, !length_app. lia.
Qed.

(** *** The balance line *)


(** *** Errors on the screen *)

(** X18.  Of the three handlers that send a request, [submitForm] and
    [payment] take the errors of an earlier failure down before they send,
    and [confirmPaypalPayment] does not: after a confirmed execute succeeds,
    the errors that were on the screen are still there, beside the success
    notice. *)
Theorem confirm_keeps_earlier_errors (s : State) :
  (snd (submitForm s) = [] \/ errors (fst (submitForm s)) = None)
  /\ errors (fst (payment s)) = Some []
  /\ errors (fst (confirmPaypalPayment s)) = errors s
  /\ errors (executePaypalPayment_then (fst (confirmPaypalPayment s))) = errors s
  /\ successNotice (executePaypalPayment_then (fst (confirmPaypalPayment s)))
     = Some "Payment successfully submitted.".
Proof.
  repeat split; try (destruct s; reflexivity).
  unfold submitForm. destruct (negb (JS.isNil _)); simpl.
  - now left.
  - right. destruct s; reflexivity.
Qed.

(** *** The shape of the amount sent *)

Lemma length_zeros (n : nat) : String.length (JS.zeros n) = n.
Proof. induction n; simpl; congruence. Qed.

Lemma length_append (a b : string) :
  String.length (a ++ b) = (String.length a + String.length b)%nat.
Proof. induction a; simpl; congruence. Qed.

Lemma length_substring (s : string) :
  forall n m, (n + m <= String.length s)%nat -> String.length (substring n m s) = m.
Proof.
  induction s as [|c s IH]; intros n m H; simpl in *.
  - destruct n, m; simpl in *; try lia; reflexivity.
  - destruct n as [|n].
    + destruct m as [|m]; [reflexivity|]. simpl. f_equal. apply (IH 0%nat). simpl. lia.
    + apply IH. lia.
Qed.

(** X19.  When the amount parses to a finite number below 10^21, what
    [(+usd).toFixed(2)] hands to the gateway is a minus sign for a negative
    number, a non-empty integer part, a point and exactly two more
    characters. *)
Theorem sent_amount_has_two_decimals (value : string) (neg : bool) (m e : Z) :
  JS.StringToNumber value = JS.Finite neg m e ->
  (0 <=? e) && (10 ^ 21 <=? m * 2 ^ e) = false ->
  exists a b,
    toFixed2 value = (if neg && (0 <? m) then "-" else EmptyString) ++ a ++ "." ++ b
    /\ a <> EmptyString
    /\ String.length b = 2%nat.
Proof.
  intros Hx Hsmall. unfold toFixed2. rewrite Hx. unfold JS.toFixed. rewrite Hsmall.
  cbv zeta.
  set (n := if 0 <=? e then _ else _).
  set (ds := JS.decimal n).
  set (padded := if (String.length ds <=? 2)%nat then _ else ds).
  assert (Hlen : (3 <= String.length padded)%nat).
  { unfold padded. destruct (Nat.leb_spec (String.length ds) 2).
    - rewrite length_append, length_zeros. lia.
    - lia. }
  exists (substring 0 (String.length padded - 2) padded),
         (substring (String.length padded - 2) 2 padded).
  split; [reflexivity|]. split.
  - intros Ha.
    assert (K : String.length (substring 0 (String.length padded - 2) padded)
                = (String.length padded - 2)%nat) by (apply length_substring; lia).
    rewrite Ha in K. simpl in K. lia.
  - apply length_substring. lia.
Qed.

Lemma sent_amount_has_two_decimals_witness :
  exists a b,
    toFixed2 "-1234.5678"
    = (if true && (0 <? 5429686605511341) then "-" else EmptyString) ++ a ++ "." ++ b
    /\ a <> EmptyString
    /\ String.length b = 2%nat.
Proof.
  apply (sent_amount_has_two_decimals "-1234.5678" true 5429686605511341 (-42)).
  - vm_compute. reflexivity.
  - reflexivity.
Defined.

End Workflow.
